(** * EIP-7980: Ed25519 transaction signature verification

    A shallow embedding of the Go package of the repository (package [main],
    with [Verify], [deriveAddress], [ParseSignatureInfo] and [ToBytes]) and of
    the copy of [Verify] that lives in package [test], together with the
    properties of the specification that concern them.

    Go values are modelled as follows.
    - [[]byte], [[N]byte]: lists of [Byte.byte]; the length of an array is a
      typing invariant of the Go program and is proved where it matters.
    - [int] and untyped integer constants: [Z].
    - [(T, error)]: a pair of a [T] and an [option] of the error value, [None]
      being Go's [nil].
    - a function that may panic and that calls into the cryptographic
      libraries: a computation of the monad [go], which carries the outcome
      (a value or a panic) and the log of the library calls made so far. *)

From Stdlib Require Import ZArith List String Ascii Bool Lia.
From Stdlib Require Import Strings.Byte DecimalString.
From Bignums Require Import BigZ.
Import ListNotations.

Local Open Scope Z_scope.

(** ** Bytes and byte slices *)

Definition bytes : Type := list byte.

Definition len {A : Type} (s : list A) : Z := Z.of_nat (List.length s).

Definition byte_to_Z (b : byte) : Z := Z.of_N (Byte.to_N b).

Definition byte_of_Z (z : Z) : byte :=
  match Byte.of_N (Z.to_N (z mod 256)) with
  | Some b => b
  | None => x00
  end.

Definition byte_xor (x y : byte) : byte :=
  byte_of_Z (Z.lxor (byte_to_Z x) (byte_to_Z y)).

(** [make([]byte, n)], and the zero value of [[n]byte]. *)
Definition make (n : Z) : bytes := repeat x00 (Z.to_nat n).

(** The builtin [copy(dst, src)]: it overwrites the first
    [min(len(dst), len(src))] bytes of [dst] and never panics.  The result is
    the new content of [dst]. *)
Definition copy (dst src : bytes) : bytes :=
  let n := Nat.min (List.length dst) (List.length src) in
  firstn n src ++ skipn n dst.

(** ** The monad of Go computations *)

(** Calls into the two cryptographic libraries, in the order they are made. *)
Inductive call : Type :=
| call_ed25519_Verify (publicKey message sig : bytes)
| call_sha3_NewLegacyKeccak256
| call_hash_Write (p : bytes)
| call_hash_Sum (b : bytes).

Inductive outcome (A : Type) : Type :=
| Returned (a : A)
| Panicked (msg : string).

Arguments Returned {A} a.
Arguments Panicked {A} msg.

Definition go (A : Type) : Type := list call -> outcome A * list call.

Definition ret {A : Type} (a : A) : go A := fun log => (Returned a, log).

Definition bind {A B : Type} (m : go A) (k : A -> go B) : go B :=
  fun log =>
    match m log with
    | (Returned a, log') => k a log'
    | (Panicked msg, log') => (Panicked msg, log')
    end.

Definition panic {A : Type} (msg : string) : go A :=
  fun log => (Panicked msg, log).

Definition record (c : call) : go unit :=
  fun log => (Returned tt, log ++ [c]).

Declare Scope go_scope.
Delimit Scope go_scope with go.
Notation "x <- m ;; k" := (bind m (fun x => k))
  (at level 61, m at next level, right associativity) : go_scope.
Notation "m ;;; k" := (bind m (fun _ => k))
  (at level 61, right associativity) : go_scope.

(** Running a computation from an empty log. *)
Definition run {A : Type} (m : go A) : outcome A * list call := m [].
Definition result {A : Type} (m : go A) : outcome A := fst (run m).
Definition calls {A : Type} (m : go A) : list call := snd (run m).

Local Open Scope go_scope.

(** The slice expression [s[lo:hi]].  Go checks [0 <= lo <= hi <= cap(s)]; the
    slices of this program are never extended, so the capacity is the
    length. *)
Definition slice (s : bytes) (lo hi : Z) : go bytes :=
  if (0 <=? lo) && (lo <=? hi) && (hi <=? len s)
  then ret (firstn (Z.to_nat (hi - lo)) (skipn (Z.to_nat lo) s))
  else panic "slice bounds out of range".

(** [copy(dst[lo:hi], src)]: the window aliases [dst], so the write is seen in
    [dst]. *)
Definition copy_into (dst : bytes) (lo hi : Z) (src : bytes) : go bytes :=
  window <- slice dst lo hi ;;
  ret (firstn (Z.to_nat lo) dst ++ copy window src ++ skipn (Z.to_nat hi) dst).

(** ** Errors of package [errors] and [fmt] *)

(** Both [errors.New] and [fmt.Errorf] without [%w] return an
    [*errors.errorString], whose only content is its message. *)
Inductive error : Type :=
| errorString (s : string).

Definition Error (e : error) : string :=
  match e with errorString s => s end.

Definition errors_New (text : string) : error := errorString text.

(** The verb [%d] on an [int]. *)
Definition fmt_d (z : Z) : string := NilEmpty.string_of_int (Z.to_int z).

(** The verb [%x] on a byte slice: two lower-case hexadecimal digits per
    byte. *)
Definition hex_char (k : Z) : ascii :=
  ascii_of_nat (Z.to_nat (if k <? 10 then 48 + k else 87 + k)).

Fixpoint fmt_x (b : bytes) : string :=
  match b with
  | [] => EmptyString
  | x :: rest =>
      String (hex_char (byte_to_Z x / 16))
             (String (hex_char (byte_to_Z x mod 16)) (fmt_x rest))
  end.

(** ** Package [golang.org/x/crypto/sha3]: the legacy Keccak-256 hash

    The repository calls [sha3.NewLegacyKeccak256], [Write] and [Sum].  The
    library is modelled after its sponge: a 200-byte state [a], the number [n]
    of bytes absorbed in the current block, the rate (136 bytes for a 256-bit
    capacity of 512 bits), the domain-separation byte and the output length.
    The legacy constructor sets the domain-separation byte to [0x01], the
    padding of the original Keccak submission; the SHA3-256 constructor of the
    same library sets [0x06]. *)

Module sha3.

(** 64-bit lanes, as [uint64] with the wrap-around written out. *)
Definition rotl64 (x : Z) (k : Z) : Z :=
  Z.lor (Z.land (Z.shiftl x k) (Z.ones 64)) (Z.shiftr x (64 - k)).

Definition not64 (x : Z) : Z := Z.lxor x (Z.ones 64).

Definition lane (A : list Z) (i : nat) : Z := nth i A 0.

(** Round constants of Keccak-f[1600]. *)
Definition rc : list Z :=
  [ 0x0000000000000001; 0x0000000000008082; 0x800000000000808A;
    0x8000000080008000; 0x000000000000808B; 0x0000000080000001;
    0x8000000080008081; 0x8000000000008009; 0x000000000000008A;
    0x0000000000000088; 0x0000000080008009; 0x000000008000000A;
    0x000000008000808B; 0x800000000000008B; 0x8000000000008089;
    0x8000000000008003; 0x8000000000008002; 0x8000000000000080;
    0x000000000000800A; 0x800000008000000A; 0x8000000080008081;
    0x8000000000008080; 0x0000000080000001; 0x8000000080008008 ].

(** Rotation offsets, at index [x + 5 * y]. *)
Definition rotc : list Z :=
  [ 0; 1; 62; 28; 27;  36; 44; 6; 55; 20;  3; 10; 43; 25; 39;
    41; 45; 15; 21; 8;  18; 2; 61; 56; 14 ].

Definition theta (A : list Z) : list Z :=
  let C := map (fun x =>
                  Z.lxor (lane A x)
                    (Z.lxor (lane A (x + 5))
                       (Z.lxor (lane A (x + 10))
                          (Z.lxor (lane A (x + 15)) (lane A (x + 20))))))
               (seq 0 5) in
  let D := map (fun x =>
                  Z.lxor (lane C ((x + 4) mod 5))
                         (rotl64 (lane C ((x + 1) mod 5)) 1))
               (seq 0 5) in
  map (fun i => Z.lxor (lane A i) (lane D (i mod 5))) (seq 0 25).

(** Lane [(x, y)] moves to [(y, 2x + 3y)], rotated by its offset; read
    backwards, position [(X, Y)] receives lane [(X + 3Y, X)]. *)
Definition rho_pi (A : list Z) : list Z :=
  map (fun i =>
         let X := (i mod 5)%nat in
         let Y := (i / 5)%nat in
         let j := ((X + 3 * Y) mod 5 + 5 * X)%nat in
         rotl64 (lane A j) (nth j rotc 0))
      (seq 0 25).

Definition chi (B : list Z) : list Z :=
  map (fun i =>
         let X := (i mod 5)%nat in
         let Y := (i / 5)%nat in
         Z.lxor (lane B i)
                (Z.land (not64 (lane B ((X + 1) mod 5 + 5 * Y)))
                        (lane B ((X + 2) mod 5 + 5 * Y))))
      (seq 0 25).

Definition iota (c : Z) (A : list Z) : list Z :=
  match A with
  | [] => []
  | a0 :: rest => Z.lxor a0 c :: rest
  end.

Definition round (A : list Z) (c : Z) : list Z :=
  iota c (chi (rho_pi (theta A))).

Definition keccakF1600 (A : list Z) : list Z := fold_left round rc A.

(** Little-endian lanes of the byte state. *)
Definition le_uint64 (b : bytes) : Z :=
  fold_right (fun x acc => byte_to_Z x + 256 * acc) 0 b.

Fixpoint put_le (k : nat) (z : Z) : bytes :=
  match k with
  | O => []
  | S k' => byte_of_Z z :: put_le k' (Z.shiftr z 8)
  end.

Definition load_lanes (a : bytes) : list Z :=
  map (fun i => le_uint64 (firstn 8 (skipn (8 * i) a))) (seq 0 25).

Definition store_lanes (A : list Z) : bytes := flat_map (put_le 8) A.

Record state : Type := mkState {
  a : bytes;        (* [200]byte *)
  n : Z;
  rate : Z;
  dsbyte : byte;
  outputLen : Z
}.

(** [s[i] ^= b]; the index is below the rate wherever the library uses
    it. *)
Definition xor_at (s : bytes) (i : Z) (b : byte) : bytes :=
  firstn (Z.to_nat i) s ++
  match skipn (Z.to_nat i) s with
  | [] => []
  | x :: r => byte_xor x b :: r
  end.

Definition permute (d : state) : state :=
  mkState (store_lanes (keccakF1600 (load_lanes (a d))))
          0 (rate d) (dsbyte d) (outputLen d).

Definition padAndPermute (d : state) : state :=
  let a1 := xor_at (a d) (n d) (dsbyte d) in
  let a2 := xor_at a1 (rate d - 1) x80 in
  permute (mkState a2 (n d) (rate d) (dsbyte d) (outputLen d)).

(** Absorbing one byte: xor it into the block, permute when the block is
    full. *)
Definition absorb (d : state) (b : byte) : state :=
  let d' := mkState (xor_at (a d) (n d) b) (n d + 1)
                    (rate d) (dsbyte d) (outputLen d) in
  if n d' =? rate d' then permute d' else d'.

(** Squeezing [k] bytes of output. *)
Fixpoint squeeze (k : nat) (d : state) : bytes :=
  match k with
  | O => []
  | S k' =>
      let d := if n d =? rate d then permute d else d in
      nth (Z.to_nat (n d)) (a d) x00 ::
      squeeze k' (mkState (a d) (n d + 1) (rate d) (dsbyte d) (outputLen d))
  end.

(** The state [NewLegacyKeccak256] allocates: rate 136, output length 32,
    domain-separation byte [0x01]. *)
Definition legacyKeccak256 : state := mkState (make 200) 0 136 x01 32.

Definition NewLegacyKeccak256 : go state :=
  record call_sha3_NewLegacyKeccak256 ;;;
  ret legacyKeccak256.

(** [d.Write(p)]; the byte count and the nil error it returns are dropped by
    the caller.  The result is the hash object after the call. *)
Definition Write (d : state) (p : bytes) : go state :=
  record (call_hash_Write p) ;;;
  ret (fold_left absorb p d).

(** The digest of the bytes absorbed so far: [Sum] pads and squeezes a copy
    of the state, which is left as it is. *)
Definition digest (d : state) : bytes :=
  squeeze (Z.to_nat (outputLen d)) (padAndPermute d).

(** [d.Sum(in)] appends the digest to [in]. *)
Definition Sum (d : state) (b : bytes) : go bytes :=
  record (call_hash_Sum b) ;;;
  ret (b ++ digest d).

(** Keccak-256 of a message: the digest after absorbing it into a fresh
    legacy state. *)
Definition Keccak256 (msg : bytes) : bytes :=
  digest (fold_left absorb msg legacyKeccak256).

End sha3.

(** ** Package [crypto/ed25519]

    [ed25519.Verify(publicKey, message, sig)] panics when the public key is
    not [PublicKeySize] bytes long and otherwise reports the decision of the
    pure Ed25519 verification of RFC 8032, section 5.1.7.  That decision is
    the library's, not the repository's: it is the parameter [valid] of this
    development.  Below, [crypto_ed25519.verify] models the decision of the
    library after its source and [RFC8032.verify] is the verification as the
    RFC states it; they agree on the inputs of the tests and differ on public
    keys that the RFC does not decode. *)

Module ed25519.

Definition PublicKeySize : Z := 32.
Definition SignatureSize : Z := 64.

Section Verify.

Variable valid : bytes -> bytes -> bytes -> bool.

Definition Verify (publicKey message sig : bytes) : go bool :=
  record (call_ed25519_Verify publicKey message sig) ;;;
  if negb (len publicKey =? PublicKeySize)
  then panic ("ed25519: bad public key length: " ++ fmt_d (len publicKey))
  else ret (valid publicKey message sig).

End Verify.

(** [ed25519.Sign(privateKey, message)] panics when the private key is not
    [PrivateKeySize] bytes long and otherwise returns the signature the
    library computes, the parameter [sign].  It is called by the example
    program and by the tests, never by [Verify], and is not logged. *)
Definition PrivateKeySize : Z := 64.

Section Sign.

Variable sign : bytes -> bytes -> bytes.

Definition Sign (privateKey message : bytes) : go bytes :=
  if negb (len privateKey =? PrivateKeySize)
  then panic ("ed25519: bad private key length: " ++ fmt_d (len privateKey))
  else ret (sign privateKey message).

End Sign.

End ed25519.

(** ** Package [main] *)

Module Main.

(** EIP-7980 constants. *)
Definition ALG_TYPE : byte := x00.
Definition GAS_PENALTY : Z := 1000.
Definition MAX_SIZE : Z := 96.

(** The 96-byte signature data structure: [Signature [64]byte] and
    [PublicKey [32]byte]. *)
Record SignatureInfo : Type := mkSignatureInfo {
  Signature : bytes;
  PublicKey : bytes
}.

(** A 20-byte Ethereum address, [[20]byte]. *)
Definition ExecutionAddress : Type := bytes.

(** [ExecutionAddress{}] *)
Definition zeroAddress : ExecutionAddress := make 20.

(** [deriveAddress]: the last 20 bytes of [keccak256(publicKey)]. *)
Definition deriveAddress (publicKey : bytes) : go ExecutionAddress :=
  hash <- sha3.NewLegacyKeccak256 ;;
  hash <- sha3.Write hash publicKey ;;
  fullHash <- sha3.Sum hash [] ;;
  let address := make 20 in
  tail <- slice fullHash (len fullHash - 20) (len fullHash) ;;
  ret (copy address tail).

Section Verify.

Variable valid : bytes -> bytes -> bytes -> bool.

(** [Verify(signatureInfo []byte, payloadHash [32]byte)] *)
Definition Verify (signatureInfo payloadHash : bytes)
  : go (ExecutionAddress * option error) :=
  if negb (len signatureInfo =? MAX_SIZE) then
    ret (zeroAddress,
         Some (errors_New ("invalid signature info length: expected "
                           ++ fmt_d MAX_SIZE ++ ", got "
                           ++ fmt_d (len signatureInfo))))
  else
    signature <- slice signatureInfo 0 64 ;;
    publicKey <- slice signatureInfo 64 96 ;;
    ok <- ed25519.Verify valid publicKey payloadHash signature ;;
    if negb ok then
      ret (zeroAddress,
           Some (errors_New "ed25519 signature verification failed"))
    else
      address <- deriveAddress publicKey ;;
      ret (address, None).

End Verify.

(** [(addr ExecutionAddress) String()] *)
Definition String (addr : ExecutionAddress) : string :=
  ("0x" ++ fmt_x addr)%string.

(** [ParseSignatureInfo] returns a pointer, [None] being [nil]. *)
Definition ParseSignatureInfo (data : bytes)
  : go (option SignatureInfo * option error) :=
  if negb (len data =? MAX_SIZE) then
    ret (None,
         Some (errors_New ("invalid data length: expected "
                           ++ fmt_d MAX_SIZE ++ ", got "
                           ++ fmt_d (len data))))
  else
    head <- slice data 0 64 ;;
    let Signature := copy (make 64) head in
    tail <- slice data 64 96 ;;
    let PublicKey := copy (make 32) tail in
    ret (Some (mkSignatureInfo Signature PublicKey), None).

(** [(s *SignatureInfo) ToBytes()]; reading a field through a nil receiver
    panics. *)
Definition ToBytes (s : option SignatureInfo) : go bytes :=
  match s with
  | None =>
      panic "runtime error: invalid memory address or nil pointer dereference"
  | Some s =>
      let result := make MAX_SIZE in
      result <- copy_into result 0 64 (Signature s) ;;
      result <- copy_into result 64 (len result) (PublicKey s) ;;
      ret result
  end.

End Main.

(** ** Package [test]: the copy of [Verify] under test *)

Module Test.

Definition ALG_TYPE : byte := x00.
Definition GAS_PENALTY : Z := 1000.
Definition MAX_SIZE : Z := 96.

Definition ExecutionAddress : Type := bytes.
Definition zeroAddress : ExecutionAddress := make 20.

(** [type VerifyError struct { msg string }]; the two package variables
    point to two objects that nothing modifies, so a pointer is modelled by
    the object it points to. *)
Record VerifyError : Type := mkVerifyError { msg : string }.

Definition ErrInvalidLength : VerifyError :=
  mkVerifyError "invalid signature length".
Definition ErrInvalidSignature : VerifyError :=
  mkVerifyError "signature verification failed".

Definition Error (e : VerifyError) : string := msg e.

Definition deriveAddress (publicKey : bytes) : go ExecutionAddress :=
  hash <- sha3.NewLegacyKeccak256 ;;
  hash <- sha3.Write hash publicKey ;;
  fullHash <- sha3.Sum hash [] ;;
  let address := make 20 in
  tail <- slice fullHash (len fullHash - 20) (len fullHash) ;;
  ret (copy address tail).

Section Verify.

Variable valid : bytes -> bytes -> bytes -> bool.

Definition Verify (signatureInfo payloadHash : bytes)
  : go (ExecutionAddress * option VerifyError) :=
  if negb (len signatureInfo =? MAX_SIZE) then
    ret (zeroAddress, Some ErrInvalidLength)
  else
    signature <- slice signatureInfo 0 64 ;;
    publicKey <- slice signatureInfo 64 96 ;;
    ok <- ed25519.Verify valid publicKey payloadHash signature ;;
    if negb ok then
      ret (zeroAddress, Some ErrInvalidSignature)
    else
      address <- deriveAddress publicKey ;;
      ret (address, None).

End Verify.

End Test.

(** ** An executable Ed25519

    The pure Ed25519 of RFC 8032 (sections 5.1.2 to 5.1.7) over SHA-512 of
    FIPS 180-4, written at the level of the RFC: field elements are integers
    modulo [p], points are in extended homogeneous coordinates.  This is the
    verification the specification names, with the strict decoding of
    section 5.1.3; it is one value of the parameter [valid], on which
    statements are evaluated.  The private key has the layout of
    [crypto/ed25519], the 32-byte seed followed by the public key. *)

Module RFC8032.

(** *** SHA-512 *)

Definition add64 (x y : Z) : Z := Z.land (x + y) (Z.ones 64).

Definition rotr64 (x k : Z) : Z :=
  Z.lor (Z.shiftr x k) (Z.land (Z.shiftl x (64 - k)) (Z.ones 64)).

Definition K512 : list Z :=
  [
    0x428a2f98d728ae22; 0x7137449123ef65cd; 0xb5c0fbcfec4d3b2f; 0xe9b5dba58189dbbc;
    0x3956c25bf348b538; 0x59f111f1b605d019; 0x923f82a4af194f9b; 0xab1c5ed5da6d8118;
    0xd807aa98a3030242; 0x12835b0145706fbe; 0x243185be4ee4b28c; 0x550c7dc3d5ffb4e2;
    0x72be5d74f27b896f; 0x80deb1fe3b1696b1; 0x9bdc06a725c71235; 0xc19bf174cf692694;
    0xe49b69c19ef14ad2; 0xefbe4786384f25e3; 0x0fc19dc68b8cd5b5; 0x240ca1cc77ac9c65;
    0x2de92c6f592b0275; 0x4a7484aa6ea6e483; 0x5cb0a9dcbd41fbd4; 0x76f988da831153b5;
    0x983e5152ee66dfab; 0xa831c66d2db43210; 0xb00327c898fb213f; 0xbf597fc7beef0ee4;
    0xc6e00bf33da88fc2; 0xd5a79147930aa725; 0x06ca6351e003826f; 0x142929670a0e6e70;
    0x27b70a8546d22ffc; 0x2e1b21385c26c926; 0x4d2c6dfc5ac42aed; 0x53380d139d95b3df;
    0x650a73548baf63de; 0x766a0abb3c77b2a8; 0x81c2c92e47edaee6; 0x92722c851482353b;
    0xa2bfe8a14cf10364; 0xa81a664bbc423001; 0xc24b8b70d0f89791; 0xc76c51a30654be30;
    0xd192e819d6ef5218; 0xd69906245565a910; 0xf40e35855771202a; 0x106aa07032bbd1b8;
    0x19a4c116b8d2d0c8; 0x1e376c085141ab53; 0x2748774cdf8eeb99; 0x34b0bcb5e19b48a8;
    0x391c0cb3c5c95a63; 0x4ed8aa4ae3418acb; 0x5b9cca4f7763e373; 0x682e6ff3d6b2b8a3;
    0x748f82ee5defb2fc; 0x78a5636f43172f60; 0x84c87814a1f0ab72; 0x8cc702081a6439ec;
    0x90befffa23631e28; 0xa4506cebde82bde9; 0xbef9a3f7b2c67915; 0xc67178f2e372532b;
    0xca273eceea26619c; 0xd186b8c721c0c207; 0xeada7dd6cde0eb1e; 0xf57d4f7fee6ed178;
    0x06f067aa72176fba; 0x0a637dc5a2c898a6; 0x113f9804bef90dae; 0x1b710b35131c471b;
    0x28db77f523047d84; 0x32caab7b40c72493; 0x3c9ebe0a15c9bebc; 0x431d67c49c100d4c;
    0x4cc5d4becb3e42b6; 0x597f299cfc657e2a; 0x5fcb6fab3ad6faec; 0x6c44198c4a475817 ].

Definition H512 : list Z :=
  [ 0x6a09e667f3bcc908; 0xbb67ae8584caa73b; 0x3c6ef372fe94f82b;
    0xa54ff53a5f1d36f1; 0x510e527fade682d1; 0x9b05688c2b3e6c1f;
    0x1f83d9abfb41bd6b; 0x5be0cd19137e2179 ].

Definition be_uint (b : bytes) : Z :=
  fold_left (fun acc x => 256 * acc + byte_to_Z x) b 0.

Fixpoint put_be (k : nat) (z : Z) : bytes :=
  match k with
  | O => []
  | S k' => put_be k' (Z.shiftr z 8) ++ [byte_of_Z z]
  end.

Definition pad512 (msg : bytes) : bytes :=
  msg ++ [x80] ++ repeat x00 (Z.to_nat ((111 - len msg) mod 128))
      ++ put_be 16 (8 * len msg).

Fixpoint blocks (k : nat) (m : bytes) : list bytes :=
  match k with
  | O => []
  | S k' => firstn 128 m :: blocks k' (skipn 128 m)
  end.

Definition word (w : list Z) (i : nat) : Z := nth i w 0.

Definition ssig0 (x : Z) : Z :=
    Z.lxor (rotr64 x 1) (Z.lxor (rotr64 x 8) (Z.shiftr x 7)).
Definition ssig1 (x : Z) : Z :=
    Z.lxor (rotr64 x 19) (Z.lxor (rotr64 x 61) (Z.shiftr x 6)).
Definition bsig0 (x : Z) : Z :=
    Z.lxor (rotr64 x 28) (Z.lxor (rotr64 x 34) (rotr64 x 39)).
Definition bsig1 (x : Z) : Z :=
    Z.lxor (rotr64 x 14) (Z.lxor (rotr64 x 18) (rotr64 x 41)).
Definition ch (x y z : Z) : Z :=
    Z.lxor (Z.land x y) (Z.land (Z.lxor x (Z.ones 64)) z).
Definition maj (x y z : Z) : Z :=
    Z.lxor (Z.land x y) (Z.lxor (Z.land x z) (Z.land y z)).

Definition schedule (blk : bytes) : list Z :=
  fold_left
    (fun w i =>
       w ++ [ add64 (add64 (word w (i - 16)) (ssig0 (word w (i - 15))))
                    (add64 (word w (i - 7)) (ssig1 (word w (i - 2)))) ])
    (seq 16 64)
    (map (fun i => be_uint (firstn 8 (skipn (8 * i) blk))) (seq 0 16)).

(** The eight working variables, [a] first. *)
Definition step (v : list Z) (kw : Z * Z) : list Z :=
  match v with
  | [a; b; c; d; e; f; g; h] =>
      let t1 := add64 (add64 (add64 h (bsig1 e)) (ch e f g))
                      (add64 (fst kw) (snd kw)) in
      let t2 := add64 (bsig0 a) (maj a b c) in
      [add64 t1 t2; a; b; c; add64 d t1; e; f; g]
  | _ => v
  end.

Definition compress (H : list Z) (blk : bytes) : list Z :=
  let v := fold_left step (combine K512 (schedule blk)) H in
  map (fun xy => add64 (fst xy) (snd xy)) (combine H v).

Definition sha512 (msg : bytes) : bytes :=
  let m := pad512 msg in
  flat_map (put_be 8)
           (fold_left compress (blocks (List.length m / 128) m) H512).

(** *** The curve

    Field elements are [bigZ] integers reduced modulo [p]. *)

Local Open Scope bigZ_scope.

(** [p = 2^255 - 19]; [L = 2^252 + 27742317777372353535851937790883648493],
    the order of the base point. *)
Definition p : bigZ :=
  57896044618658097711785492504343953926634992332820282019728792003956564819949.
Definition L : Z :=
  7237005577332262213973186563042994240857116359379907606001950938285454250989.

Fixpoint pow_pos (x : bigZ) (e : positive) : bigZ :=
  match e with
  | xH => x mod p
  | xO e' => let y := pow_pos x e' in (y * y) mod p
  | xI e' => let y := pow_pos x e' in ((y * y) mod p * x) mod p
  end.

Definition fpow (x : bigZ) (e : Z) : bigZ :=
  match e with
  | Zpos e' => pow_pos x e'
  | _ => 1
  end.

Definition finv (x : bigZ) : bigZ := fpow x (BigZ.to_Z p - 2).

(** [d = -121665/121666] and a square root of [-1], [2^((p-1)/4)]. *)
Definition d : bigZ :=
  37095705934669439343138083508754565189542113879843219016388785533085940283555.
Definition sqrt_m1 : bigZ :=
  19681161376707505956807079304988542015446066515923890162744021073123829784752.

Definition point : Type := (bigZ * bigZ * bigZ * bigZ)%type.

Definition point_add (P Q : point) : point :=
  let '(X1, Y1, Z1, T1) := P in
  let '(X2, Y2, Z2, T2) := Q in
  let A := ((Y1 - X1) * (Y2 - X2)) mod p in
  let B := ((Y1 + X1) * (Y2 + X2)) mod p in
  let C := (((T1 * 2) mod p * d) mod p * T2) mod p in
  let D := (Z1 * 2 * Z2) mod p in
  let E := B - A in
  let F := D - C in
  let G := D + C in
  let H := B + A in
  ((E * F) mod p, (G * H) mod p, (F * G) mod p, (E * H) mod p).

Definition neutral : point := (0, 1, 1, 0).

Fixpoint mul_pos (s : positive) (P : point) : point :=
  match s with
  | xH => P
  | xO s' => let Q := mul_pos s' P in point_add Q Q
  | xI s' => let Q := mul_pos s' P in point_add (point_add Q Q) P
  end.

Definition point_mul (s : Z) (P : point) : point :=
  match s with
  | Zpos s' => mul_pos s' P
  | _ => neutral
  end.

Definition point_equal (P Q : point) : bool :=
  let '(X1, Y1, Z1, _) := P in
  let '(X2, Y2, Z2, _) := Q in
  ((X1 * Z2 - X2 * Z1) mod p =? 0) && ((Y1 * Z2 - Y2 * Z1) mod p =? 0).

(** The abscissa of parity [sign] for the ordinate [y], section 5.1.3. *)
Definition recover_x (y : bigZ) (sign : bool) : option bigZ :=
  if p <=? y then None
  else
    let x2 := ((y * y - 1) * finv ((d * y) mod p * y + 1)) mod p in
    if x2 =? 0 then (if sign then None else Some 0)
    else
      let x := fpow x2 ((BigZ.to_Z p + 3) / 8) in
      let x := if (x * x - x2) mod p =? 0 then x else (x * sqrt_m1) mod p in
      if (x * x - x2) mod p =? 0
      then Some (if Bool.eqb (Z.odd (BigZ.to_Z x)) sign then x else p - x)
      else None.

(** The base point, of ordinate [4/5] and even abscissa. *)
Definition base_x : bigZ :=
  15112221349535400772501151409588531511454012693041857206046113283949847762202.
Definition base_y : bigZ :=
  46316835694926478169428394003475163141307993866256225615783033603165251855960.
Definition base : point := (base_x, base_y, 1, (base_x * base_y) mod p).

Local Close Scope bigZ_scope.

Definition le_uint (b : bytes) : Z :=
  fold_right (fun x acc => byte_to_Z x + 256 * acc) 0 b.

Fixpoint put_le (k : nat) (z : Z) : bytes :=
  match k with
  | O => []
  | S k' => byte_of_Z z :: put_le k' (Z.shiftr z 8)
  end.

Definition point_compress (P : point) : bytes :=
  let '(X1, Y1, Z1, _) := P in
  let zinv := finv Z1 in
  let x := BigZ.to_Z (BigZ.modulo (BigZ.mul X1 zinv) p) in
  let y := BigZ.to_Z (BigZ.modulo (BigZ.mul Y1 zinv) p) in
  put_le 32 (Z.lor y (Z.shiftl (Z.land x 1) 255)).

Definition point_decompress (s : bytes) : option point :=
  if negb (len s =? 32) then None
  else
    let y := le_uint s in
    let sign := Z.testbit y 255 in
    let y := BigZ.of_Z (Z.land y (Z.ones 255)) in
    match recover_x y sign with
    | Some x => Some (x, y, BigZ.one, BigZ.modulo (BigZ.mul x y) p)
    | None => None
    end.

(** *** Keys, signing and verification *)

(** The clamped secret scalar and the prefix, section 5.1.5. *)
Definition secret_expand (seed : bytes) : Z * bytes :=
  let h := sha512 seed in
  let a := le_uint (firstn 32 h) in
  let a := Z.land a (Z.ones 254 - 7) in
  (Z.lor a (Z.shiftl 1 254), skipn 32 h).

Definition publicKey (seed : bytes) : bytes :=
  point_compress (point_mul (fst (secret_expand seed)) base).

(** [ed25519.NewKeyFromSeed] *)
Definition NewKeyFromSeed (seed : bytes) : bytes := seed ++ publicKey seed.

(** [ed25519.Sign], section 5.1.6. *)
Definition sign (privateKey message : bytes) : bytes :=
  let seed := firstn 32 privateKey in
  let A := skipn 32 privateKey in
  let '(a, prefix) := secret_expand seed in
  let r := le_uint (sha512 (prefix ++ message)) mod L in
  let Rs := point_compress (point_mul r base) in
  let k := le_uint (sha512 (Rs ++ A ++ message)) mod L in
  let S := (r + k * a) mod L in
  Rs ++ put_le 32 S.

(** Section 5.1.7, with the check [[S]B = R + [k]A]. *)
Definition verify (publicKey message sig : bytes) : bool :=
  if negb (len sig =? 64) then false
  else
    match point_decompress publicKey with
    | None => false
    | Some A =>
        let Rs := firstn 32 sig in
        match point_decompress Rs with
        | None => false
        | Some R =>
            let S := le_uint (skipn 32 sig) in
            if L <=? S then false
            else
              let k := le_uint (sha512 (Rs ++ publicKey ++ message)) mod L in
              point_equal (point_mul S base)
                          (point_add R (point_mul k A))
        end
    end.

End RFC8032.

(** ** The verification of the Go standard library

    The decision of [ed25519.Verify], after the source of the library
    ([verify] in [crypto/ed25519], [Point.SetBytes] in [edwards25519] and
    [Element.SqrtRatio] in [edwards25519/field]), over the field and curve
    arithmetic of [RFC8032].  The library checks the equation of section
    5.1.7 by encoding [[k](-A) + [S]B] and comparing the bytes with the first
    half of the signature.  It decodes the public key more leniently than
    section 5.1.3: an ordinate that is not reduced modulo [p] is reduced,
    and a zero abscissa with the sign bit set is accepted. *)

Module crypto_ed25519.

Local Open Scope bigZ_scope.

Definition feMul (x y : bigZ) : bigZ := (x * y) mod RFC8032.p.
Definition feNegate (x : bigZ) : bigZ := (RFC8032.p - x) mod RFC8032.p.

(** [Element.IsNegative]: the low bit of the reduced value. *)
Definition IsNegative (x : bigZ) : bool := Z.odd (BigZ.to_Z (x mod RFC8032.p)).

(** [Element.SqrtRatio(u, v)]: the non-negative square root of [u/v] and
    whether [u/v] is a square. *)
Definition SqrtRatio (u v : bigZ) : bigZ * bool :=
  let v2 := feMul v v in
  let uv3 := feMul u (feMul v2 v) in
  let uv7 := feMul uv3 (feMul v2 v2) in
  let rr := feMul uv3 (RFC8032.fpow uv7 ((BigZ.to_Z RFC8032.p - 5) / 8)) in
  let check := feMul v (feMul rr rr) in
  let uNeg := feNegate u in
  let correctSignSqrt := check =? u mod RFC8032.p in
  let flippedSignSqrt := check =? uNeg in
  let flippedSignSqrtI := check =? feMul uNeg RFC8032.sqrt_m1 in
  let rPrime := feMul rr RFC8032.sqrt_m1 in
  let rr := if flippedSignSqrt || flippedSignSqrtI then rPrime else rr in
  (if IsNegative rr then feNegate rr else rr,
   correctSignSqrt || flippedSignSqrt).

(** [Point.SetBytes]: [Element.SetBytes] drops the top bit and accepts the
    values from [p] to [2^255 - 1]; the sign bit selects the negated root,
    also when the root is zero. *)
Definition SetBytes (x : bytes) : option RFC8032.point :=
  if negb (len x =? 32)%Z then None
  else
    let y := BigZ.of_Z (Z.land (RFC8032.le_uint x) (Z.ones 255))
             mod RFC8032.p in
    let y2 := feMul y y in
    let u := (y2 - 1) mod RFC8032.p in
    let vv := (feMul y2 RFC8032.d + 1) mod RFC8032.p in
    let '(xx, wasSquare) := SqrtRatio u vv in
    if negb wasSquare then None
    else
      let xx := if Z.testbit (RFC8032.le_uint x) 255 then feNegate xx else xx in
      Some (xx, y, 1, feMul xx y).

(** [Point.Negate] *)
Definition Negate (P : RFC8032.point) : RFC8032.point :=
  let '(X1, Y1, Z1, T1) := P in (feNegate X1, Y1, Z1, feNegate T1).

Local Close Scope bigZ_scope.

(** [bytes.Equal] *)
Fixpoint bytes_Equal (a b : bytes) : bool :=
  match a, b with
  | [], [] => true
  | x :: a', y :: b' => Byte.eqb x y && bytes_Equal a' b'
  | _, _ => false
  end.

(** [verify], for a public key of 32 bytes. *)
Definition verify (publicKey message sig : bytes) : bool :=
  if negb (len sig =? 64)
     || negb (Z.land (byte_to_Z (nth 63 sig x00)) 224 =? 0)
  then false
  else
    match SetBytes publicKey with
    | None => false
    | Some A =>
        let k :=
          RFC8032.le_uint
            (RFC8032.sha512 (firstn 32 sig ++ publicKey ++ message))
          mod RFC8032.L in
        let S := RFC8032.le_uint (skipn 32 sig) in
        if RFC8032.L <=? S then false
        else
          let minusA := Negate A in
          let R := RFC8032.point_add (RFC8032.point_mul k minusA)
                     (RFC8032.point_mul S RFC8032.base) in
          bytes_Equal (firstn 32 sig) (RFC8032.point_compress R)
    end.

End crypto_ed25519.

(** ** Vocabulary of the statements *)

(** [s[lo:hi]] as a value, for bounds that are in range. *)
Definition sub (s : bytes) (lo hi : nat) : bytes :=
  firstn (hi - lo) (skipn lo s).

(** The last 20 bytes of a digest. *)
Definition last20 (digest : bytes) : bytes :=
  skipn (List.length digest - 20) digest.

(** The two errors [Verify] of package [main] builds. *)
Definition lengthError (got : Z) : error :=
  errors_New ("invalid signature info length: expected " ++ fmt_d 96
              ++ ", got " ++ fmt_d got).

Definition signatureError : error :=
  errors_New "ed25519 signature verification failed".

(** The library calls of one address derivation. *)
Definition derivation_calls (publicKey : bytes) : list call :=
  [call_sha3_NewLegacyKeccak256; call_hash_Write publicKey; call_hash_Sum []].

(** ** Test data

    The key pair of the first test vector of RFC 8032, section 7.1, and the
    digest of [TestValidSignature]. *)

Definition hex_digit (c : ascii) : Z :=
  let k := Z.of_nat (nat_of_ascii c) in
  if (48 <=? k) && (k <=? 57) then k - 48
  else if (97 <=? k) && (k <=? 102) then k - 87
  else 0.

Fixpoint unhex (s : string) : bytes :=
  match s with
  | String c1 (String c2 rest) =>
      byte_of_Z (16 * hex_digit c1 + hex_digit c2) :: unhex rest
  | _ => []
  end.

Definition bytes_of_string (s : string) : bytes :=
  map byte_of_ascii (list_ascii_of_string s).

Definition seed1 : bytes :=
  unhex "9d61b19deffd5a60ba844af492ec2cc44449c5697b326919703bac031cae7f60".

Definition publicKey1 : bytes :=
  unhex "d75a980182b10ab7d54bfed3c964073a0ee172f3daa62325af021a68f707511a".

Definition privateKey1 : bytes := seed1 ++ publicKey1.

(** [payloadHash := [32]byte{}; copy(payloadHash[:], []byte("test transaction"))] *)
Definition payloadHash1 : bytes :=
  copy (make 32) (bytes_of_string "test transaction").

Definition signature1 : bytes :=
  unhex ("25ef842acec41982383d408229cb18ee6e3177b7a0293f6a9b758ab1fed48320"
         ++ "4456671cf7efa452a1835bba304b3959c7ee893e20b2a09a8cbf2a44bb14bb06").

Definition signatureInfo1 : bytes := signature1 ++ publicKey1.

Definition address1 : bytes :=
  unhex "f7cc70adc63659b5d37671dc2b588db32446684a".

(** Two public keys that section 5.1.3 of RFC 8032 refuses to decode: the
    ordinate [p + 1], not reduced, and the ordinate [1] with the sign bit set
    on a zero abscissa.  Both stand for the neutral point, under which the
    neutral point and the scalar zero sign every message for the library. *)
Definition publicKey_unreduced : bytes :=
  unhex "eeffffffffffffffffffffffffffffffffffffffffffffffffffffffffffff7f".

Definition publicKey_signed_zero : bytes :=
  unhex "0100000000000000000000000000000000000000000000000000000000000080".

Definition signature_neutral : bytes :=
  unhex ("0100000000000000000000000000000000000000000000000000000000000000"
         ++ "0000000000000000000000000000000000000000000000000000000000000000").

(** ** The example program and the tests

    [ed25519.GenerateKey(nil)] draws a key pair at random: its result, the
    public key, the private key and the error, is the argument [generated] of
    the functions below.  What [fmt] prints on the standard output is
    the string a function returns; what [t.Errorf] and [t.Fatal] report is
    the list of messages a test returns, empty when the test passes. *)

Definition newline : string := String (ascii_of_nat 10) EmptyString.

(** Package [main], [func main]. *)
Module Usage.

Section main.

Variable valid : bytes -> bytes -> bytes -> bool.
Variable sign : bytes -> bytes -> bytes.

(** The four lines printed before the key is generated. *)
Definition banner : string :=
  ("EIP-7980: Ed25519 Transaction Signature Verification" ++ newline
   ++ "Algorithm Type: 0x" ++ fmt_x [Main.ALG_TYPE] ++ newline
   ++ "Gas Penalty: " ++ fmt_d Main.GAS_PENALTY ++ newline
   ++ "Max Size: " ++ fmt_d Main.MAX_SIZE ++ " bytes" ++ newline)%string.

Definition main (generated : bytes * bytes * option error) : go string :=
  let stdout := banner in
  let '(publicKey, privateKey, err) := generated in
  match err with
  | Some e =>
      ret (stdout ++ "Error generating key: " ++ Error e ++ newline)%string
  | None =>
      let payloadHash :=
        copy (make 32) (bytes_of_string "example transaction payload hash") in
      signature <- ed25519.Sign sign privateKey payloadHash ;;
      let signatureInfo := make Main.MAX_SIZE in
      signatureInfo <- copy_into signatureInfo 0 64 signature ;;
      signatureInfo <-
        copy_into signatureInfo 64 (len signatureInfo) publicKey ;;
      r <- Main.Verify valid signatureInfo payloadHash ;;
      let '(address, err) := r in
      match err with
      | Some e =>
          ret (stdout ++ "Verification failed: " ++ Error e ++ newline)%string
      | None =>
          ret (stdout ++ newline ++ " Signature verified successfully!"
                      ++ newline
                      ++ "Derived Ethereum Address: " ++ Main.String address
                      ++ newline)%string
      end
  end.

End main.

End Usage.

(** Package [test], the tests that call [Verify] on a generated key. *)
Module Tests.

(** [err != ErrInvalidSignature] compares two pointers; the two error objects
    of the package have different messages. *)
Definition VerifyError_eqb (e e' : Test.VerifyError) : bool :=
  String.eqb (Test.msg e) (Test.msg e').

(** The verb [%v] on an [error]. *)
Definition fmt_v (e : option Test.VerifyError) : string :=
  match e with
  | Some e => Test.Error e
  | None => "<nil>"
  end.

Section Library.

Variable valid : bytes -> bytes -> bytes -> bool.
Variable sign : bytes -> bytes -> bytes.

Definition TestValidSignature (generated : bytes * bytes * option error)
  : go (list string) :=
  let '(publicKey, privateKey, err) := generated in
  match err with
  | Some e => ret [Error e]
  | None =>
      let payloadHash := copy (make 32) (bytes_of_string "test transaction") in
      signature <- ed25519.Sign sign privateKey payloadHash ;;
      let signatureInfo := make Test.MAX_SIZE in
      signatureInfo <- copy_into signatureInfo 0 64 signature ;;
      signatureInfo <-
        copy_into signatureInfo 64 (len signatureInfo) publicKey ;;
      r <- Test.Verify valid signatureInfo payloadHash ;;
      let '(address, err) := r in
      let t :=
        match err with
        | Some e => ["Valid signature failed: " ++ Test.Error e]%string
        | None => []
        end in
      let t :=
        if negb (len address =? 20)
        then t ++ ["Address length = " ++ fmt_d (len address)
                   ++ ", want 20"]%string
        else t in
      ret t
  end.

(** The error of [GenerateKey] and the private key are dropped by the
    test. *)
Definition TestInvalidSignature (generated : bytes * bytes * option error)
  : go (list string) :=
  let '(publicKey, _, _) := generated in
  let signatureInfo := make Test.MAX_SIZE in
  signatureInfo <- copy_into signatureInfo 64 (len signatureInfo) publicKey ;;
  let payloadHash := make 32 in
  r <- Test.Verify valid signatureInfo payloadHash ;;
  let '(_, err) := r in
  match err with
  | Some e =>
      if VerifyError_eqb e Test.ErrInvalidSignature then ret []
      else ret ["Expected signature error, got " ++ fmt_v err]%string
  | None => ret ["Expected signature error, got " ++ fmt_v err]%string
  end.

End Library.

End Tests.

(** ** [Verify] over the store

    [sha3.NewLegacyKeccak256] returns a pointer to a hash object that it
    allocates, [Write] modifies the object behind the pointer and [Sum] reads
    it.  Here the hash objects live in a store, a pointer is an index into
    it, and a computation takes the store and the history of library calls
    it starts from and returns the ones it ends with.  [Store.deriveAddress]
    and [Store.Verify] are [deriveAddress] and [Verify] of package [main]
    over this store; package [main] has no package variable, so the store
    holds every object a call of [Verify] can reach. *)

Module Store.

Record world : Type := mkWorld {
  objects : list sha3.state;
  history : list call
}.

Definition gos (A : Type) : Type := world -> outcome A * world.

Definition ret {A : Type} (a : A) : gos A := fun w => (Returned a, w).

Definition bind {A B : Type} (m : gos A) (k : A -> gos B) : gos B :=
  fun w =>
    match m w with
    | (Returned a, w') => k a w'
    | (Panicked msg, w') => (Panicked msg, w')
    end.

Declare Scope store_scope.
Delimit Scope store_scope with store.
Notation "x <- m ;; k" := (bind m (fun x => k))
  (at level 61, m at next level, right associativity) : store_scope.
Notation "m ;;; k" := (bind m (fun _ => k))
  (at level 61, right associativity) : store_scope.

Local Open Scope store_scope.

(** A computation that touches no object: slice expressions and the call of
    [ed25519.Verify]. *)
Definition lift {A : Type} (m : go A) : gos A :=
  fun w =>
    match m (history w) with
    | (o, log) => (o, mkWorld (objects w) log)
    end.

(** Allocation: the new object is placed after the existing ones. *)
Definition new (d : sha3.state) : gos nat :=
  fun w =>
    (Returned (List.length (objects w)),
     mkWorld (objects w ++ [d]) (history w)).

(** Reading through a pointer. *)
Definition load (h : nat) : gos sha3.state :=
  fun w =>
    match nth_error (objects w) h with
    | Some d => (Returned d, w)
    | None =>
        (Panicked
           "runtime error: invalid memory address or nil pointer dereference",
         w)
    end.

Fixpoint update (l : list sha3.state) (h : nat) (d : sha3.state)
  : list sha3.state :=
  match l, h with
  | [], _ => []
  | _ :: l', O => d :: l'
  | x :: l', S h' => x :: update l' h' d
  end.

(** Writing through a pointer. *)
Definition store (h : nat) (d : sha3.state) : gos unit :=
  fun w => (Returned tt, mkWorld (update (objects w) h d) (history w)).

Definition NewLegacyKeccak256 : gos nat :=
  lift (record call_sha3_NewLegacyKeccak256) ;;;
  new sha3.legacyKeccak256.

Definition Write (h : nat) (p : bytes) : gos unit :=
  lift (record (call_hash_Write p)) ;;;
  d <- load h ;;
  store h (fold_left sha3.absorb p d).

Definition Sum (h : nat) (b : bytes) : gos bytes :=
  lift (record (call_hash_Sum b)) ;;;
  d <- load h ;;
  ret (b ++ sha3.digest d).

Definition deriveAddress (publicKey : bytes) : gos Main.ExecutionAddress :=
  hash <- NewLegacyKeccak256 ;;
  Write hash publicKey ;;;
  fullHash <- Sum hash [] ;;
  let address := make 20 in
  tail <- lift (slice fullHash (len fullHash - 20) (len fullHash)) ;;
  ret (copy address tail).

Section Verify.

Variable valid : bytes -> bytes -> bytes -> bool.

Definition Verify (signatureInfo payloadHash : bytes)
  : gos (Main.ExecutionAddress * option error) :=
  if negb (len signatureInfo =? Main.MAX_SIZE) then
    ret (Main.zeroAddress,
         Some (errors_New ("invalid signature info length: expected "
                           ++ fmt_d Main.MAX_SIZE ++ ", got "
                           ++ fmt_d (len signatureInfo))))
  else
    signature <- lift (slice signatureInfo 0 64) ;;
    publicKey <- lift (slice signatureInfo 64 96) ;;
    ok <- lift (ed25519.Verify valid publicKey payloadHash signature) ;;
    if negb ok then
      ret (Main.zeroAddress,
           Some (errors_New "ed25519 signature verification failed"))
    else
      address <- deriveAddress publicKey ;;
      ret (address, None).

End Verify.

End Store.

(** * Properties *)

(** ** The models of the libraries against published vectors *)

Example keccak_empty :
  sha3.Keccak256 [] =
  unhex "c5d2460186f7233c927e7db2dcc703c0e500b653ca82273b7bfad8045d85a470".
Proof. vm_compute. reflexivity. Qed.

Example keccak_abc :
  sha3.Keccak256 (bytes_of_string "abc") =
  unhex "4e03657aea45a94fc7d47ba826c8d667c0d1e6e33a64a036ec44f58fa12d6c45".
Proof. vm_compute. reflexivity. Qed.

(** A message longer than one block of 136 bytes. *)
Example keccak_two_blocks :
  sha3.Keccak256 (repeat "a"%byte 200) =
  unhex "96ea54061def936c4be90b518992fdc6f12f535068a256229aca54267b4d084d".
Proof. vm_compute. reflexivity. Qed.

Example sha512_abc :
  RFC8032.sha512 (bytes_of_string "abc") =
  unhex ("ddaf35a193617abacc417349ae20413112e6fa4e89a97ea20a9eeee64b55d39a"
         ++ "2192992a274fc1a836ba3c23a3feebbd454d4423643ce80e2a9ac94fa54ca49f").
Proof. vm_compute. reflexivity. Qed.

Example rfc8032_test1_publicKey : RFC8032.publicKey seed1 = publicKey1.
Proof. vm_compute. reflexivity. Qed.

Example rfc8032_test1_sign :
  RFC8032.sign privateKey1 [] =
  unhex ("e5564300c360ac729086e2cc806e828a84877f1eb8e5d974d873e06522490155"
         ++ "5fb8821590a33bacc61e39701cf9b46bd25bf5f0595bbe24655141438e7a100b").
Proof. vm_compute. reflexivity. Qed.

Example rfc8032_test1_verify :
  RFC8032.verify publicKey1 [] (RFC8032.sign privateKey1 []) = true.
Proof. vm_compute. reflexivity. Qed.

Example sign_payloadHash1 : RFC8032.sign privateKey1 payloadHash1 = signature1.
Proof. vm_compute. reflexivity. Qed.

(** ** Slices, [copy] and the sponge *)

Lemma len_length {A : Type} (s : list A) (k : nat) :
  len s = Z.of_nat k <-> List.length s = k.
Proof. unfold len. lia. Qed.

Lemma len_app {A : Type} (s t : list A) : len (s ++ t) = len s + len t.
Proof. unfold len. rewrite length_app. lia. Qed.

Lemma len_make (k : Z) : 0 <= k -> len (make k) = k.
Proof. intros Hk. unfold len, make. rewrite repeat_length. lia. Qed.

(** A slice expression with bounds in range returns, and leaves the log as
    it is. *)
Lemma slice_in_range (s : bytes) (lo hi : nat) (log : list call) :
  (lo <= hi)%nat -> (hi <= List.length s)%nat ->
  slice s (Z.of_nat lo) (Z.of_nat hi) log = (Returned (sub s lo hi), log).
Proof.
  intros Hlo Hhi. unfold slice, sub, len.
  replace ((0 <=? Z.of_nat lo) && (Z.of_nat lo <=? Z.of_nat hi)
           && (Z.of_nat hi <=? Z.of_nat (List.length s))) with true.
  - unfold ret. rewrite Nat2Z.id.
    replace (Z.to_nat (Z.of_nat hi - Z.of_nat lo)) with (hi - lo)%nat by lia.
    reflexivity.
  - symmetry. rewrite !andb_true_iff, !Z.leb_le. lia.
Qed.

(** Out of range it panics. *)
Lemma slice_out_of_range (s : bytes) (lo hi : Z) (log : list call) :
  len s < hi ->
  slice s lo hi log = (Panicked "slice bounds out of range", log).
Proof.
  intros Hhi. unfold slice.
  replace (hi <=? len s) with false by (symmetry; apply Z.leb_gt; exact Hhi).
  rewrite andb_false_r. reflexivity.
Qed.

Lemma length_sub (s : bytes) (lo hi : nat) :
  (hi <= List.length s)%nat -> List.length (sub s lo hi) = (hi - lo)%nat.
Proof.
  intros Hhi. unfold sub. rewrite length_firstn, length_skipn. lia.
Qed.

(** [copy] into a destination of the length of the source yields the
    source. *)
Lemma copy_same_length (dst src : bytes) :
  List.length dst = List.length src -> copy dst src = src.
Proof.
  intros Hlen. unfold copy. rewrite Hlen, Nat.min_id.
  rewrite firstn_all, <- Hlen, skipn_all. apply app_nil_r.
Qed.

Lemma squeeze_length (k : nat) (d : sha3.state) :
  List.length (sha3.squeeze k d) = k.
Proof.
  revert d. induction k as [|k IH]; intros d; simpl.
  - reflexivity.
  - f_equal. apply IH.
Qed.

Lemma last20_length (digest : bytes) :
  List.length digest = 32%nat -> List.length (last20 digest) = 20%nat.
Proof. intros H. unfold last20. rewrite length_skipn, H. reflexivity. Qed.

(** Absorbing changes neither the output length nor the padding byte of the
    hash object. *)
Lemma absorb_parameters (d : sha3.state) (b : byte) :
  sha3.outputLen (sha3.absorb d b) = sha3.outputLen d /\
  sha3.dsbyte (sha3.absorb d b) = sha3.dsbyte d /\
  sha3.rate (sha3.absorb d b) = sha3.rate d.
Proof.
  unfold sha3.absorb. cbn [sha3.n sha3.rate].
  destruct (sha3.n d + 1 =? sha3.rate d); repeat split.
Qed.

Lemma fold_left_absorb_outputLen (msg : bytes) (d : sha3.state) :
  sha3.outputLen (fold_left sha3.absorb msg d) = sha3.outputLen d.
Proof.
  revert d. induction msg as [|b msg IH]; intros d; simpl.
  - reflexivity.
  - rewrite IH. apply absorb_parameters.
Qed.

(** A Keccak-256 digest has 32 bytes, whatever the message. *)
Lemma Keccak256_length (msg : bytes) : List.length (sha3.Keccak256 msg) = 32%nat.
Proof.
  unfold sha3.Keccak256, sha3.digest.
  rewrite squeeze_length, fold_left_absorb_outputLen. reflexivity.
Qed.

(** [hash.Sum(nil)] after one [hash.Write(msg)] on a fresh legacy hash is the
    Keccak-256 digest of [msg]. *)
Lemma Write_Sum_Keccak256 (msg : bytes) (log : list call) :
  (hash <- sha3.NewLegacyKeccak256 ;;
   hash <- sha3.Write hash msg ;;
   sha3.Sum hash []) log
  = (Returned (sha3.Keccak256 msg), log ++ derivation_calls msg).
Proof.
  unfold sha3.NewLegacyKeccak256, sha3.Write, sha3.Sum, sha3.Keccak256,
    derivation_calls, bind, ret, record.
  rewrite <- !app_assoc. reflexivity.
Qed.

(** ** What the two packages compute *)

(** The script shared by the two copies of [deriveAddress]. *)
Ltac derive_address :=
  intros publicKey log;
  cbv beta delta [bind ret record sha3.NewLegacyKeccak256 sha3.Write sha3.Sum];
  cbv beta iota; cbn [app];
  change (sha3.digest (fold_left sha3.absorb publicKey sha3.legacyKeccak256))
    with (sha3.Keccak256 publicKey);
  generalize (Keccak256_length publicKey);
  generalize (sha3.Keccak256 publicKey); intros digest Hlen;
  replace (len digest - 20) with (Z.of_nat 12) by (unfold len; lia);
  replace (len digest) with (Z.of_nat 32) by (unfold len; lia);
  rewrite slice_in_range by lia;
  rewrite copy_same_length
    by (rewrite length_sub by lia; reflexivity);
  unfold sub, last20, derivation_calls; rewrite Hlen;
  rewrite firstn_all2 by (rewrite length_skipn; lia);
  rewrite <- !app_assoc; reflexivity.

Lemma deriveAddress_run :
  forall (publicKey : bytes) (log : list call),
    Main.deriveAddress publicKey log
    = (Returned (last20 (sha3.Keccak256 publicKey)),
       log ++ derivation_calls publicKey).
Proof. unfold Main.deriveAddress. derive_address. Qed.

Lemma Test_deriveAddress_run :
  forall (publicKey : bytes) (log : list call),
    Test.deriveAddress publicKey log
    = (Returned (last20 (sha3.Keccak256 publicKey)),
       log ++ derivation_calls publicKey).
Proof. unfold Test.deriveAddress. derive_address. Qed.

Section Packages.

Variable valid : bytes -> bytes -> bytes -> bool.

(** [ed25519.Verify] returns the library's decision on a 32-byte key. *)
Lemma ed25519_Verify_run (publicKey message sig : bytes) (log : list call) :
  len publicKey = 32 ->
  ed25519.Verify valid publicKey message sig log
  = (Returned (valid publicKey message sig),
     log ++ [call_ed25519_Verify publicKey message sig]).
Proof.
  intros Hlen. unfold ed25519.Verify, bind, record, ret.
  rewrite Hlen. reflexivity.
Qed.

(** On any other key it panics. *)
Lemma ed25519_Verify_panics (publicKey message sig : bytes) (log : list call) :
  len publicKey <> 32 ->
  ed25519.Verify valid publicKey message sig log
  = (Panicked ("ed25519: bad public key length: " ++ fmt_d (len publicKey)),
     log ++ [call_ed25519_Verify publicKey message sig]).
Proof.
  intros Hlen. unfold ed25519.Verify, bind, record, ret, panic.
  apply Z.eqb_neq in Hlen. unfold ed25519.PublicKeySize. rewrite Hlen.
  reflexivity.
Qed.

(** The script shared by the two copies of [Verify] on a 96-byte input. *)
Ltac verify_96 derive_run :=
  intros signatureInfo payloadHash log Hlen;
  pose proof (proj1 (len_length signatureInfo 96) Hlen) as Hlength;
  rewrite Hlen; cbn [Z.eqb Pos.eqb negb];
  unfold bind at 1; change 0 with (Z.of_nat 0);
  change 64 with (Z.of_nat 64); rewrite slice_in_range by lia;
  unfold bind at 1; change 96 with (Z.of_nat 96);
  rewrite slice_in_range by lia;
  unfold bind at 1;
  rewrite ed25519_Verify_run
    by (unfold len; rewrite length_sub by lia; reflexivity);
  destruct (valid (sub signatureInfo 64 96) payloadHash
              (sub signatureInfo 0 64)); cbn [negb];
  [ unfold bind; rewrite derive_run; unfold ret;
    rewrite <- app_assoc; reflexivity
  | reflexivity ].

Lemma Verify_96 :
  forall (signatureInfo payloadHash : bytes) (log : list call),
    len signatureInfo = 96 ->
    Main.Verify valid signatureInfo payloadHash log =
    let signature := sub signatureInfo 0 64 in
    let publicKey := sub signatureInfo 64 96 in
    if valid publicKey payloadHash signature
    then (Returned (last20 (sha3.Keccak256 publicKey), None),
          log ++ call_ed25519_Verify publicKey payloadHash signature
              :: derivation_calls publicKey)
    else (Returned (Main.zeroAddress, Some signatureError),
          log ++ [call_ed25519_Verify publicKey payloadHash signature]).
Proof. unfold Main.Verify, Main.MAX_SIZE. verify_96 deriveAddress_run. Qed.

Lemma Test_Verify_96 :
  forall (signatureInfo payloadHash : bytes) (log : list call),
    len signatureInfo = 96 ->
    Test.Verify valid signatureInfo payloadHash log =
    let signature := sub signatureInfo 0 64 in
    let publicKey := sub signatureInfo 64 96 in
    if valid publicKey payloadHash signature
    then (Returned (last20 (sha3.Keccak256 publicKey), None),
          log ++ call_ed25519_Verify publicKey payloadHash signature
              :: derivation_calls publicKey)
    else (Returned (Test.zeroAddress, Some Test.ErrInvalidSignature),
          log ++ [call_ed25519_Verify publicKey payloadHash signature]).
Proof. unfold Test.Verify, Test.MAX_SIZE. verify_96 Test_deriveAddress_run. Qed.

Lemma Verify_not_96 (signatureInfo payloadHash : bytes) (log : list call) :
  len signatureInfo <> 96 ->
  Main.Verify valid signatureInfo payloadHash log
  = (Returned (Main.zeroAddress, Some (lengthError (len signatureInfo))), log).
Proof.
  intros Hlen. unfold Main.Verify, Main.MAX_SIZE.
  apply Z.eqb_neq in Hlen. rewrite Hlen. reflexivity.
Qed.

Lemma Test_Verify_not_96 (signatureInfo payloadHash : bytes) (log : list call) :
  len signatureInfo <> 96 ->
  Test.Verify valid signatureInfo payloadHash log
  = (Returned (Test.zeroAddress, Some Test.ErrInvalidLength), log).
Proof.
  intros Hlen. unfold Test.Verify, Test.MAX_SIZE.
  apply Z.eqb_neq in Hlen. rewrite Hlen. reflexivity.
Qed.

End Packages.

(** ** The tests of the repository and the reach of a panic *)

(** [TestValidSignature], on the key pair of RFC 8032. *)
Example TestValidSignature :
  run (Test.Verify RFC8032.verify signatureInfo1 payloadHash1)
  = (Returned (address1, None),
     call_ed25519_Verify publicKey1 payloadHash1 signature1
       :: derivation_calls publicKey1).
Proof. vm_compute. reflexivity. Qed.

(** [TestInvalidLength]: 50 bytes. *)
Example TestInvalidLength :
  run (Test.Verify RFC8032.verify (make 50) (make 32))
  = (Returned (Test.zeroAddress, Some Test.ErrInvalidLength), []).
Proof. vm_compute. reflexivity. Qed.

(** [TestInvalidSignature]: a zero signature before a valid public key. *)
Example TestInvalidSignature :
  result (Test.Verify RFC8032.verify (make 64 ++ publicKey1) (make 32))
  = Returned (Test.zeroAddress, Some Test.ErrInvalidSignature).
Proof. vm_compute. reflexivity. Qed.

(** The same three inputs through package [main]. *)
Example main_valid_signature :
  result (Main.Verify RFC8032.verify signatureInfo1 payloadHash1)
  = Returned (address1, None).
Proof. vm_compute. reflexivity. Qed.

Example main_invalid_length :
  Error (lengthError (len (make 50)))
  = "invalid signature info length: expected 96, got 50"%string.
Proof. vm_compute. reflexivity. Qed.

Example main_tampered_digest :
  result (Main.Verify RFC8032.verify signatureInfo1 (make 32))
  = Returned (Main.zeroAddress, Some signatureError).
Proof. vm_compute. reflexivity. Qed.

Example address1_String :
  Main.String address1 = "0xf7cc70adc63659b5d37671dc2b588db32446684a"%string.
Proof. vm_compute. reflexivity. Qed.

(** Without the length guard both the slice expressions and the library call
    can panic. *)
Example slice_short_input_panics :
  result (slice (make 50) 0 64) = Panicked "slice bounds out of range".
Proof. reflexivity. Qed.

Example ed25519_Verify_short_key_panics :
  result (ed25519.Verify RFC8032.verify (make 31) payloadHash1 signature1)
  = Panicked "ed25519: bad public key length: 31".
Proof. vm_compute. reflexivity. Qed.

(** The SHA3-256 constructor of the same library differs from the legacy one
    by its domain-separation byte alone, and gives another digest. *)
Example sha3_256_differs :
  sha3.digest (sha3.mkState (make 200) 0 136 x06 32)
  = unhex "a7ffc6f8bf1ed76651c14756a061d662f580ff4de43b49fa82d80a4b80f8434a"
  /\ sha3.digest (sha3.mkState (make 200) 0 136 x06 32) <> sha3.Keccak256 [].
Proof. vm_compute. split; [reflexivity | discriminate]. Qed.

(** ** Auxiliary facts for the claims *)

Lemma sub_app_left (s t : bytes) (k : nat) :
  List.length s = k -> sub (s ++ t) 0 k = s.
Proof.
  intros Hk. unfold sub. rewrite Nat.sub_0_r. cbn [skipn].
  rewrite firstn_app, Hk, Nat.sub_diag. cbn [firstn].
  rewrite app_nil_r, <- Hk. apply firstn_all.
Qed.

Lemma sub_app_right (s t : bytes) (k m : nat) :
  List.length s = k -> List.length t = m -> sub (s ++ t) k (k + m) = t.
Proof.
  intros Hk Hm. unfold sub.
  replace (k + m - k)%nat with m by lia.
  rewrite skipn_app, Hk, Nat.sub_diag, <- Hk, skipn_all. cbn [skipn app].
  rewrite <- Hm. apply firstn_all.
Qed.

(** A 96-byte input is its two slices, one after the other. *)
Lemma sub_split_96 (s : bytes) :
  List.length s = 96%nat -> sub s 0 64 ++ sub s 64 96 = s.
Proof.
  intros Hs. unfold sub.
  change (96 - 64)%nat with 32%nat. change (64 - 0)%nat with 64%nat.
  change (skipn 0 s) with s.
  rewrite (firstn_all2 (n := 32)) by (rewrite length_skipn; lia).
  apply firstn_skipn.
Qed.

(** The message of the length error starts with another letter than the
    message of the signature error. *)
Lemma lengthError_not_signatureError (got : Z) :
  lengthError got <> signatureError.
Proof.
  unfold lengthError, signatureError, errors_New. intros H.
  injection H as H. cbn [String.append] in H. discriminate H.
Qed.

Lemma ErrInvalidLength_not_ErrInvalidSignature :
  Test.ErrInvalidLength <> Test.ErrInvalidSignature.
Proof. discriminate. Qed.

(** ** The claims *)

(** [Verify] follows the library: on a 96-byte [signatureInfo] it returns an
    address with a nil error exactly when the parameter [valid] accepts the
    signature [signatureInfo[0:64]] under the public key
    [signatureInfo[64:96]] over [payloadHash]; when [valid] rejects, it
    returns the signature error; and the first library call of every run is
    that verification, the hashing of the public key following it only when
    it accepted.  Whether the library decides as RFC 8032 does is another
    matter, see [Verify_accepts_undecodable_key]. *)
Lemma Verify_iff_signature_valid
  (valid : bytes -> bytes -> bytes -> bool) (signatureInfo payloadHash : bytes) :
  len signatureInfo = 96 ->
  let signature := sub signatureInfo 0 64 in
  let publicKey := sub signatureInfo 64 96 in
  ((exists address,
       result (Main.Verify valid signatureInfo payloadHash)
       = Returned (address, None))
   <-> valid publicKey payloadHash signature = true)
  /\ (valid publicKey payloadHash signature = false ->
      result (Main.Verify valid signatureInfo payloadHash)
      = Returned (Main.zeroAddress, Some signatureError))
  /\ calls (Main.Verify valid signatureInfo payloadHash)
     = call_ed25519_Verify publicKey payloadHash signature
         :: (if valid publicKey payloadHash signature
             then derivation_calls publicKey else []).
Proof.
  intros Hlen signature publicKey.
  unfold result, calls, run. rewrite (Verify_96 valid) by exact Hlen.
  cbv zeta. fold signature publicKey.
  destruct (valid publicKey payloadHash signature); cbn [fst snd app].
  - repeat split.
    + exists (last20 (sha3.Keccak256 publicKey)). reflexivity.
    + discriminate.
  - repeat split.
    + intros [address H]. discriminate H.
    + discriminate.
Qed.

(** C2.  For a public key [publicKey] of 32 bytes, a private key and a digest
    [h] such that the library produces a 64-byte signature of [h] that it
    accepts under [publicKey] -- what RFC 8032 guarantees of every key pair
    the library generates -- [Verify] on the signature followed by the public
    key returns the last 20 bytes of the Keccak-256 digest of the public key
    and a nil error. *)
Theorem Verify_accepts_signed_digest
  (valid : bytes -> bytes -> bytes -> bool) (sign : bytes -> bytes -> bytes)
  (publicKey privateKey h : bytes) :
  len publicKey = 32 ->
  len (sign privateKey h) = 64 ->
  valid publicKey h (sign privateKey h) = true ->
  len (sign privateKey h ++ publicKey) = 96
  /\ result (Main.Verify valid (sign privateKey h ++ publicKey) h)
     = Returned (last20 (sha3.Keccak256 publicKey), None).
Proof.
  intros Hpk Hsig Hvalid.
  assert (Hlen : len (sign privateKey h ++ publicKey) = 96)
    by (rewrite len_app; lia).
  split; [exact Hlen|].
  unfold result, run. rewrite (Verify_96 valid) by exact Hlen. cbv zeta.
  rewrite (sub_app_left _ _ 64) by (unfold len in Hsig; lia).
  rewrite (sub_app_right _ _ 64 32) by (unfold len in Hpk, Hsig; lia).
  rewrite Hvalid. reflexivity.
Qed.

(** C2 on the key pair of RFC 8032 and the digest of [TestValidSignature]. *)
Lemma Verify_accepts_signed_digest_witness :
  (len publicKey1 = 32
   /\ len (RFC8032.sign privateKey1 payloadHash1) = 64
   /\ RFC8032.verify publicKey1 payloadHash1
        (RFC8032.sign privateKey1 payloadHash1) = true)
  /\ result (Main.Verify RFC8032.verify
               (RFC8032.sign privateKey1 payloadHash1 ++ publicKey1)
               payloadHash1)
     = Returned (last20 (sha3.Keccak256 publicKey1), None).
Proof.
  assert (Hpk : len publicKey1 = 32) by (vm_compute; reflexivity).
  assert (Hsig : len (RFC8032.sign privateKey1 payloadHash1) = 64)
    by (vm_compute; reflexivity).
  assert (Hvalid : RFC8032.verify publicKey1 payloadHash1
                     (RFC8032.sign privateKey1 payloadHash1) = true)
    by (vm_compute; reflexivity).
  split.
  - exact (conj Hpk (conj Hsig Hvalid)).
  - exact (proj2 (Verify_accepts_signed_digest RFC8032.verify RFC8032.sign
                    publicKey1 privateKey1 payloadHash1 Hpk Hsig Hvalid)).
Defined.

(** C3.  On a [signatureInfo] whose length is not 96, [Verify] returns the
    length error, with the zero address, before any call into the
    cryptographic libraries; the outcome is the same for every input of that
    length, every digest and every behaviour of the signature library. *)
Theorem Verify_rejects_wrong_length
  (valid : bytes -> bytes -> bytes -> bool) (signatureInfo payloadHash : bytes) :
  len signatureInfo <> 96 ->
  run (Main.Verify valid signatureInfo payloadHash)
  = (Returned (Main.zeroAddress, Some (lengthError (len signatureInfo))), [])
  /\ forall (valid' : bytes -> bytes -> bytes -> bool)
            (signatureInfo' payloadHash' : bytes),
       len signatureInfo' = len signatureInfo ->
       run (Main.Verify valid' signatureInfo' payloadHash')
       = run (Main.Verify valid signatureInfo payloadHash).
Proof.
  intros Hlen. unfold run. split.
  - apply Verify_not_96. exact Hlen.
  - intros valid' signatureInfo' payloadHash' Hsame.
    rewrite !Verify_not_96 by congruence. rewrite Hsame. reflexivity.
Qed.

(** C3 on the 50 bytes of [TestInvalidLength]. *)
Lemma Verify_rejects_wrong_length_witness :
  len (make 50) <> 96 /\
  run (Main.Verify RFC8032.verify (make 50) payloadHash1)
  = (Returned (Main.zeroAddress, Some (lengthError 50)), []).
Proof.
  assert (Hlen : len (make 50) <> 96) by (vm_compute; discriminate).
  split.
  - exact Hlen.
  - exact (proj1 (Verify_rejects_wrong_length RFC8032.verify (make 50)
                    payloadHash1 Hlen)).
Defined.

(** C4.  When [Verify] returns a nil error, the address it returns is the
    last 20 bytes of the legacy Keccak-256 digest (padding byte [0x01], see
    [keccak_empty] and [sha3_256_differs]) of the 32 bytes
    [signatureInfo[64:96]], and it has 20 bytes; any other successful call,
    with whatever signature, digest and signature library, whose input
    carries the same public key returns the same address. *)
Theorem Verify_address_is_keccak
  (valid : bytes -> bytes -> bytes -> bool)
  (signatureInfo payloadHash : bytes) (address : Main.ExecutionAddress) :
  result (Main.Verify valid signatureInfo payloadHash)
  = Returned (address, None) ->
  let publicKey := sub signatureInfo 64 96 in
  len publicKey = 32
  /\ address = last20 (sha3.Keccak256 publicKey)
  /\ sha3.Keccak256 publicKey
     = sha3.digest (fold_left sha3.absorb publicKey
                      (sha3.mkState (make 200) 0 136 x01 32))
  /\ len address = 20
  /\ forall (valid' : bytes -> bytes -> bytes -> bool)
            (signatureInfo' payloadHash' : bytes)
            (address' : Main.ExecutionAddress),
       result (Main.Verify valid' signatureInfo' payloadHash')
       = Returned (address', None) ->
       sub signatureInfo' 64 96 = publicKey ->
       address' = address.
Proof.
  assert (Hsuccess :
            forall v s h a,
              result (Main.Verify v s h) = Returned (a, None) ->
              len s = 96 /\ a = last20 (sha3.Keccak256 (sub s 64 96))).
  { intros v s h a H. unfold result, run in H.
    destruct (Z.eq_dec (len s) 96) as [Hlen|Hlen].
    - split; [exact Hlen|].
      rewrite (Verify_96 v) in H by exact Hlen. cbv zeta in H.
      destruct (v (sub s 64 96) h (sub s 0 64)); cbn [fst] in H.
      + injection H as H. symmetry. exact H.
      + discriminate H.
    - rewrite (Verify_not_96 v) in H by exact Hlen. discriminate H. }
  intros H publicKey.
  destruct (Hsuccess _ _ _ _ H) as [Hlen Haddress].
  assert (Hlength : List.length signatureInfo = 96%nat)
    by (unfold len in Hlen; lia).
  repeat split.
  - unfold len, publicKey. rewrite length_sub by lia. reflexivity.
  - exact Haddress.
  - rewrite Haddress. unfold len.
    rewrite last20_length by apply Keccak256_length. reflexivity.
  - intros valid' signatureInfo' payloadHash' address' H' Hsame.
    destruct (Hsuccess _ _ _ _ H') as [_ Haddress'].
    rewrite Haddress, Haddress', Hsame. reflexivity.
Qed.

(** C4 on the input of [TestValidSignature]. *)
Lemma Verify_address_is_keccak_witness :
  result (Main.Verify RFC8032.verify signatureInfo1 payloadHash1)
  = Returned (address1, None)
  /\ address1 = last20 (sha3.Keccak256 (sub signatureInfo1 64 96))
  /\ len address1 = 20.
Proof.
  pose proof (Verify_address_is_keccak RFC8032.verify signatureInfo1
                payloadHash1 address1 main_valid_signature) as H.
  cbv zeta in H.
  exact (conj main_valid_signature
              (conj (proj1 (proj2 H)) (proj1 (proj2 (proj2 (proj2 H)))))).
Defined.

(** C5.  Every call of [Verify] returns, and in exactly one of three ways:
    the derived address with a nil error, when the input has 96 bytes and the
    library accepts the signature; the zero address with the length error,
    when the input has another length; the zero address with the signature
    error, when the input has 96 bytes and the library rejects.  The two
    errors are different values, in package [main] (by their messages) and in
    package [test] (the two [VerifyError] objects), and a nil error is
    returned in the first case only. *)
Theorem Verify_three_outcomes
  (valid : bytes -> bytes -> bytes -> bool) (signatureInfo payloadHash : bytes) :
  let signature := sub signatureInfo 0 64 in
  let publicKey := sub signatureInfo 64 96 in
  let accepted := valid publicKey payloadHash signature in
  ((len signatureInfo = 96 /\ accepted = true
    /\ result (Main.Verify valid signatureInfo payloadHash)
       = Returned (last20 (sha3.Keccak256 publicKey), None)
    /\ result (Test.Verify valid signatureInfo payloadHash)
       = Returned (last20 (sha3.Keccak256 publicKey), None))
   \/ (len signatureInfo <> 96
       /\ result (Main.Verify valid signatureInfo payloadHash)
          = Returned (Main.zeroAddress,
                      Some (lengthError (len signatureInfo)))
       /\ result (Test.Verify valid signatureInfo payloadHash)
          = Returned (Test.zeroAddress, Some Test.ErrInvalidLength))
   \/ (len signatureInfo = 96 /\ accepted = false
       /\ result (Main.Verify valid signatureInfo payloadHash)
          = Returned (Main.zeroAddress, Some signatureError)
       /\ result (Test.Verify valid signatureInfo payloadHash)
          = Returned (Test.zeroAddress, Some Test.ErrInvalidSignature)))
  /\ lengthError (len signatureInfo) <> signatureError
  /\ Test.ErrInvalidLength <> Test.ErrInvalidSignature.
Proof.
  intros signature publicKey accepted. split.
  - unfold result, run.
    destruct (Z.eq_dec (len signatureInfo) 96) as [Hlen|Hlen].
    + rewrite (Verify_96 valid), (Test_Verify_96 valid) by exact Hlen.
      cbv zeta. fold signature publicKey accepted.
      destruct accepted; cbn [fst].
      * left. auto.
      * right. right. auto.
    + rewrite (Verify_not_96 valid), (Test_Verify_not_96 valid) by exact Hlen.
      right. left. auto.
  - split.
    + apply lengthError_not_signatureError.
    + apply ErrInvalidLength_not_ErrInvalidSignature.
Qed.

(** C7.  The constants are [ALG_TYPE = 0x00], [GAS_PENALTY = 1000] and
    [MAX_SIZE = 96], in package [main] and in package [test], and [Verify]
    returns the length error exactly on the inputs whose length is not
    [MAX_SIZE]. *)
Theorem protocol_constants :
  (Main.ALG_TYPE = x00 /\ Main.GAS_PENALTY = 1000 /\ Main.MAX_SIZE = 96)
  /\ (Test.ALG_TYPE = x00 /\ Test.GAS_PENALTY = 1000 /\ Test.MAX_SIZE = 96)
  /\ forall (valid : bytes -> bytes -> bytes -> bool)
            (signatureInfo payloadHash : bytes),
       result (Main.Verify valid signatureInfo payloadHash)
       = Returned (Main.zeroAddress, Some (lengthError (len signatureInfo)))
       <-> len signatureInfo <> Main.MAX_SIZE.
Proof.
  split; [repeat split|]. split; [repeat split|].
  intros valid signatureInfo payloadHash. unfold Main.MAX_SIZE, result, run.
  split.
  - intros H Hlen. rewrite (Verify_96 valid) in H by exact Hlen.
    cbv zeta in H.
    destruct (valid (sub signatureInfo 64 96) payloadHash
                (sub signatureInfo 0 64)); cbn [fst] in H.
    + discriminate H.
    + apply (lengthError_not_signatureError (len signatureInfo)).
      congruence.
  - intros Hlen. rewrite (Verify_not_96 valid) by exact Hlen. reflexivity.
Qed.

(** [copy(dst[lo:hi], src)] with a source of the size of the window replaces
    the window by the source. *)
Lemma copy_into_window (dst src : bytes) (lo hi : nat) (log : list call) :
  (lo <= hi)%nat -> (hi <= List.length dst)%nat ->
  List.length src = (hi - lo)%nat ->
  copy_into dst (Z.of_nat lo) (Z.of_nat hi) src log
  = (Returned (firstn lo dst ++ src ++ skipn hi dst), log).
Proof.
  intros Hlo Hhi Hsrc. unfold copy_into, bind.
  rewrite slice_in_range by assumption. unfold ret.
  rewrite copy_same_length by (rewrite length_sub; lia).
  rewrite !Nat2Z.id. reflexivity.
Qed.

Lemma ParseSignatureInfo_96 (data : bytes) (log : list call) :
  len data = 96 ->
  Main.ParseSignatureInfo data log
  = (Returned (Some (Main.mkSignatureInfo (sub data 0 64) (sub data 64 96)),
               None), log).
Proof.
  intros Hlen.
  assert (Hlength : List.length data = 96%nat) by (unfold len in Hlen; lia).
  unfold Main.ParseSignatureInfo, Main.MAX_SIZE. rewrite Hlen.
  cbn [Z.eqb Pos.eqb negb].
  unfold bind at 1. change 0 with (Z.of_nat 0). change 64 with (Z.of_nat 64).
  rewrite slice_in_range by lia.
  cbv zeta. unfold bind. change 96 with (Z.of_nat 96).
  rewrite slice_in_range by lia. unfold ret.
  rewrite !copy_same_length
    by (rewrite length_sub by lia; unfold make; rewrite repeat_length;
        reflexivity).
  reflexivity.
Qed.

Lemma ParseSignatureInfo_not_96 (data : bytes) (log : list call) :
  len data <> 96 ->
  Main.ParseSignatureInfo data log
  = (Returned (None,
               Some (errors_New ("invalid data length: expected " ++ fmt_d 96
                                 ++ ", got " ++ fmt_d (len data)))), log).
Proof.
  intros Hlen. unfold Main.ParseSignatureInfo, Main.MAX_SIZE.
  apply Z.eqb_neq in Hlen. rewrite Hlen. reflexivity.
Qed.

Lemma ToBytes_run (signature publicKey : bytes) (log : list call) :
  List.length signature = 64%nat -> List.length publicKey = 32%nat ->
  Main.ToBytes (Some (Main.mkSignatureInfo signature publicKey)) log
  = (Returned (signature ++ publicKey), log).
Proof.
  intros Hsig Hpk. unfold Main.ToBytes, Main.MAX_SIZE.
  cbn [Main.Signature Main.PublicKey].
  unfold bind at 1. change 0 with (Z.of_nat 0). change 64 with (Z.of_nat 64).
  rewrite copy_into_window
    by (unfold make; rewrite ?repeat_length; lia).
  cbn [firstn app].
  assert (Hrest : List.length (skipn 64 (make 96)) = 32%nat)
    by (rewrite length_skipn; unfold make; rewrite repeat_length; lia).
  set (rest := skipn 64 (make 96)) in *.
  unfold bind.
  replace (len (signature ++ rest)) with (Z.of_nat 96)
    by (unfold len; rewrite length_app; lia).
  rewrite copy_into_window by (rewrite ?length_app; lia).
  unfold ret. rewrite skipn_all2 by (rewrite length_app; lia).
  rewrite firstn_app, Hsig, Nat.sub_diag, firstn_O, !app_nil_r.
  rewrite firstn_all2 by lia. reflexivity.
Qed.

(** C8.  [ParseSignatureInfo] returns a non-nil error, with a nil pointer,
    exactly when the input does not have 96 bytes; on 96 bytes it returns a
    [SignatureInfo], and [ToBytes] of it returns the 96 bytes of the
    input. *)
Theorem ParseSignatureInfo_ToBytes (data : bytes) :
  ((exists (s : option Main.SignatureInfo) (e : error),
       result (Main.ParseSignatureInfo data) = Returned (s, Some e))
   <-> len data <> 96)
  /\ (len data <> 96 ->
      exists e : error,
        result (Main.ParseSignatureInfo data) = Returned (None, Some e))
  /\ (len data = 96 ->
      exists s : Main.SignatureInfo,
        result (Main.ParseSignatureInfo data) = Returned (Some s, None)
        /\ result (Main.ToBytes (Some s)) = Returned data
        /\ len (Main.Signature s) = 64 /\ len (Main.PublicKey s) = 32).
Proof.
  unfold result, run. repeat split.
  - intros (s & e & H) Hlen.
    rewrite ParseSignatureInfo_96 in H by exact Hlen. discriminate H.
  - intros Hlen. rewrite ParseSignatureInfo_not_96 by exact Hlen.
    eexists. eexists. reflexivity.
  - intros Hlen. rewrite ParseSignatureInfo_not_96 by exact Hlen.
    eexists. reflexivity.
  - intros Hlen.
    assert (Hlength : List.length data = 96%nat) by (unfold len in Hlen; lia).
    exists (Main.mkSignatureInfo (sub data 0 64) (sub data 64 96)).
    rewrite ParseSignatureInfo_96 by exact Hlen.
    rewrite ToBytes_run by (rewrite length_sub by lia; reflexivity).
    rewrite sub_split_96 by exact Hlength.
    cbn [fst Main.Signature Main.PublicKey]. unfold len.
    rewrite !length_sub by lia. repeat split.
Qed.

(** The round trip on the input of [TestValidSignature]. *)
Example ParseSignatureInfo_ToBytes_example :
  result (p <- Main.ParseSignatureInfo signatureInfo1 ;; Main.ToBytes (fst p))
  = Returned signatureInfo1
  /\ result (Main.ParseSignatureInfo (make 50))
     = Returned (None,
                 Some (errors_New "invalid data length: expected 96, got 50")).
Proof. vm_compute. split; reflexivity. Qed.

(** C9.  [Verify] never panics.  On a 96-byte input the two slice expressions
    are in bounds and yield 64 and 32 bytes, and the library call on them
    returns; and whatever the input, every call of [ed25519.Verify] that
    [Verify] makes is on a 32-byte public key and a 64-byte signature, so the
    panic of the library on a key of another size is not reached. *)
Theorem Verify_never_panics
  (valid : bytes -> bytes -> bytes -> bool) (signatureInfo payloadHash : bytes) :
  (exists r : Main.ExecutionAddress * option error,
      result (Main.Verify valid signatureInfo payloadHash) = Returned r)
  /\ (len signatureInfo = 96 ->
      exists signature publicKey : bytes,
        result (slice signatureInfo 0 64) = Returned signature
        /\ result (slice signatureInfo 64 96) = Returned publicKey
        /\ len signature = 64 /\ len publicKey = 32
        /\ result (ed25519.Verify valid publicKey payloadHash signature)
           = Returned (valid publicKey payloadHash signature))
  /\ (forall publicKey message sig : bytes,
        In (call_ed25519_Verify publicKey message sig)
           (calls (Main.Verify valid signatureInfo payloadHash)) ->
        len publicKey = 32 /\ len sig = 64 /\ message = payloadHash).
Proof.
  unfold result, calls, run.
  assert (Hsizes :
            List.length signatureInfo = 96%nat ->
            len (sub signatureInfo 0 64) = 64
            /\ len (sub signatureInfo 64 96) = 32).
  { intros Hlength. unfold len. rewrite !length_sub by lia. split; reflexivity. }
  destruct (Z.eq_dec (len signatureInfo) 96) as [Hlen|Hlen].
  - assert (Hlength : List.length signatureInfo = 96%nat)
      by (unfold len in Hlen; lia).
    destruct (Hsizes Hlength) as [Hsig Hpk].
    rewrite (Verify_96 valid) by exact Hlen. cbv zeta.
    split; [|split].
    + destruct (valid (sub signatureInfo 64 96) payloadHash
                  (sub signatureInfo 0 64)); eexists; reflexivity.
    + intros _.
      exists (sub signatureInfo 0 64), (sub signatureInfo 64 96).
      change 0 with (Z.of_nat 0). change 64 with (Z.of_nat 64) at 1 2.
      change 96 with (Z.of_nat 96) at 1.
      rewrite !slice_in_range by lia.
      rewrite (ed25519_Verify_run valid) by exact Hpk.
      cbn [fst]. auto.
    + intros publicKey message sig Hin.
      assert (Hcall : call_ed25519_Verify publicKey message sig
                      = call_ed25519_Verify (sub signatureInfo 64 96)
                          payloadHash (sub signatureInfo 0 64)).
      { destruct (valid (sub signatureInfo 64 96) payloadHash
                    (sub signatureInfo 0 64));
          cbn [snd app derivation_calls In] in Hin;
          unfold derivation_calls in Hin; cbn [In] in Hin;
          intuition congruence. }
      injection Hcall as -> -> ->. auto.
  - rewrite (Verify_not_96 valid) by exact Hlen. cbn [fst snd].
    split; [|split].
    + eexists. reflexivity.
    + intros Hlen'. contradiction.
    + intros publicKey message sig [].
Qed.

(** C10.  The copy of [Verify] in package [test] agrees with the one of
    package [main] on every input: they return the same address, both a nil
    error, or both their length error, or both their signature error, and
    they make the same library calls. *)
Theorem Verify_main_test_agree
  (valid : bytes -> bytes -> bytes -> bool) (signatureInfo payloadHash : bytes) :
  exists (address : bytes) (e : option error) (e' : option Test.VerifyError),
    result (Main.Verify valid signatureInfo payloadHash)
    = Returned (address, e)
    /\ result (Test.Verify valid signatureInfo payloadHash)
       = Returned (address, e')
    /\ ((e = None /\ e' = None)
        \/ (e = Some (lengthError (len signatureInfo))
            /\ e' = Some Test.ErrInvalidLength)
        \/ (e = Some signatureError /\ e' = Some Test.ErrInvalidSignature))
    /\ calls (Main.Verify valid signatureInfo payloadHash)
       = calls (Test.Verify valid signatureInfo payloadHash).
Proof.
  unfold result, calls, run.
  destruct (Z.eq_dec (len signatureInfo) 96) as [Hlen|Hlen].
  - rewrite (Verify_96 valid), (Test_Verify_96 valid) by exact Hlen.
    cbv zeta.
    destruct (valid (sub signatureInfo 64 96) payloadHash
                (sub signatureInfo 0 64)); cbn [fst snd].
    + do 3 eexists. split; [reflexivity|]. split; [reflexivity|]. auto.
    + do 3 eexists. split; [reflexivity|]. split; [reflexivity|]. auto.
  - rewrite (Verify_not_96 valid), (Test_Verify_not_96 valid) by exact Hlen.
    cbn [fst snd].
    do 3 eexists. split; [reflexivity|]. split; [reflexivity|]. auto.
Qed.

(** ** Further properties of the two packages *)

(** [deriveAddress] has no length check of its own: on a key of any length,
    the empty one included, it returns the last 20 bytes of the Keccak-256
    digest of the key, an address of 20 bytes, after one allocation, one
    [Write] and one [Sum] of the hash; the copy of package [test] does the
    same. *)
Theorem deriveAddress_any_key (publicKey : bytes) :
  run (Main.deriveAddress publicKey)
  = (Returned (last20 (sha3.Keccak256 publicKey)), derivation_calls publicKey)
  /\ run (Test.deriveAddress publicKey) = run (Main.deriveAddress publicKey)
  /\ len (last20 (sha3.Keccak256 publicKey)) = 20.
Proof.
  unfold run. rewrite deriveAddress_run, Test_deriveAddress_run.
  cbn [app]. repeat split.
  unfold len. rewrite last20_length by apply Keccak256_length. reflexivity.
Qed.

(** [ToBytes] lays a [SignatureInfo] out as its 64 signature bytes followed
    by its 32 public-key bytes, 96 bytes in all, without any library call; on
    a nil receiver it panics. *)
Theorem ToBytes_layout (s : Main.SignatureInfo) :
  len (Main.Signature s) = 64 -> len (Main.PublicKey s) = 32 ->
  (exists b : bytes,
      run (Main.ToBytes (Some s)) = (Returned b, [])
      /\ len b = 96
      /\ sub b 0 64 = Main.Signature s
      /\ sub b 64 96 = Main.PublicKey s)
  /\ exists msg : string, result (Main.ToBytes None) = Panicked msg.
Proof.
  intros Hsig Hpk. destruct s as [signature publicKey].
  cbn [Main.Signature Main.PublicKey] in *.
  assert (Hsig' : List.length signature = 64%nat) by (unfold len in Hsig; lia).
  assert (Hpk' : List.length publicKey = 32%nat) by (unfold len in Hpk; lia).
  split.
  - exists (signature ++ publicKey). unfold run.
    rewrite ToBytes_run by assumption. split; [reflexivity|].
    split; [rewrite len_app; lia|]. split.
    + apply sub_app_left. exact Hsig'.
    + apply (sub_app_right signature publicKey 64 32); assumption.
  - eexists. reflexivity.
Qed.

(** [ToBytes_layout] on the signature and the key of the test data. *)
Lemma ToBytes_layout_witness :
  (len signature1 = 64 /\ len publicKey1 = 32)
  /\ exists b : bytes,
       run (Main.ToBytes (Some (Main.mkSignatureInfo signature1 publicKey1)))
       = (Returned b, [])
       /\ len b = 96
       /\ sub b 0 64 = signature1
       /\ sub b 64 96 = publicKey1.
Proof.
  assert (Hsig : len signature1 = 64) by (vm_compute; reflexivity).
  assert (Hpk : len publicKey1 = 32) by (vm_compute; reflexivity).
  split.
  - exact (conj Hsig Hpk).
  - exact (proj1 (ToBytes_layout (Main.mkSignatureInfo signature1 publicKey1)
                    Hsig Hpk)).
Defined.

(** The round trip the other way: parsing the bytes of a [SignatureInfo]
    gives the [SignatureInfo] back, with a nil error. *)
Theorem ParseSignatureInfo_of_ToBytes (s : Main.SignatureInfo) :
  len (Main.Signature s) = 64 -> len (Main.PublicKey s) = 32 ->
  result (b <- Main.ToBytes (Some s) ;; Main.ParseSignatureInfo b)
  = Returned (Some s, None).
Proof.
  intros Hsig Hpk. destruct s as [signature publicKey].
  cbn [Main.Signature Main.PublicKey] in *.
  assert (Hsig' : List.length signature = 64%nat) by (unfold len in Hsig; lia).
  assert (Hpk' : List.length publicKey = 32%nat) by (unfold len in Hpk; lia).
  unfold result, run, bind. rewrite ToBytes_run by assumption.
  rewrite ParseSignatureInfo_96 by (rewrite len_app; lia).
  rewrite (sub_app_left signature publicKey 64) by exact Hsig'.
  change 96%nat with (64 + 32)%nat.
  rewrite (sub_app_right signature publicKey 64 32) by assumption.
  reflexivity.
Qed.

Lemma ParseSignatureInfo_of_ToBytes_witness :
  (len signature1 = 64 /\ len publicKey1 = 32)
  /\ result (b <- Main.ToBytes
                    (Some (Main.mkSignatureInfo signature1 publicKey1)) ;;
             Main.ParseSignatureInfo b)
     = Returned (Some (Main.mkSignatureInfo signature1 publicKey1), None).
Proof.
  assert (Hsig : len signature1 = 64) by (vm_compute; reflexivity).
  assert (Hpk : len publicKey1 = 32) by (vm_compute; reflexivity).
  split.
  - exact (conj Hsig Hpk).
  - exact (ParseSignatureInfo_of_ToBytes
             (Main.mkSignatureInfo signature1 publicKey1) Hsig Hpk).
Defined.

(** [ParseSignatureInfo] and [Verify] guard and split their input alike:
    either the input has 96 bytes, [ParseSignatureInfo] returns the structure
    of its first 64 and last 32 bytes, and [Verify] accepts exactly when the
    library accepts the parsed signature under the parsed public key, whose
    address it then returns; or the input has another length and both return
    an error, [Verify] the length error. *)
Theorem ParseSignatureInfo_agrees_with_Verify
  (valid : bytes -> bytes -> bytes -> bool) (data payloadHash : bytes) :
  (len data = 96
   /\ exists s : Main.SignatureInfo,
        result (Main.ParseSignatureInfo data) = Returned (Some s, None)
        /\ Main.Signature s = sub data 0 64
        /\ Main.PublicKey s = sub data 64 96
        /\ result (Main.Verify valid data payloadHash)
           = Returned
               (if valid (Main.PublicKey s) payloadHash (Main.Signature s)
                then (last20 (sha3.Keccak256 (Main.PublicKey s)), None)
                else (Main.zeroAddress, Some signatureError)))
  \/ (len data <> 96
      /\ (exists e : error,
             result (Main.ParseSignatureInfo data) = Returned (None, Some e))
      /\ result (Main.Verify valid data payloadHash)
         = Returned (Main.zeroAddress, Some (lengthError (len data)))).
Proof.
  unfold result, run.
  destruct (Z.eq_dec (len data) 96) as [Hlen|Hlen].
  - left. split; [exact Hlen|].
    exists (Main.mkSignatureInfo (sub data 0 64) (sub data 64 96)).
    rewrite ParseSignatureInfo_96, (Verify_96 valid) by exact Hlen.
    cbv zeta. cbn [Main.Signature Main.PublicKey fst].
    destruct (valid (sub data 64 96) payloadHash (sub data 0 64)); auto.
  - right. split; [exact Hlen|].
    rewrite ParseSignatureInfo_not_96, (Verify_not_96 valid) by exact Hlen.
    split; [eexists|]; reflexivity.
Qed.

(** [Verify] on the bytes of a [SignatureInfo] checks the signature of the
    structure under the public key of the structure: it returns the address
    of that key when the library accepts and the signature error when it
    rejects, never the length error. *)
Theorem Verify_of_ToBytes
  (valid : bytes -> bytes -> bytes -> bool)
  (s : Main.SignatureInfo) (payloadHash : bytes) :
  len (Main.Signature s) = 64 -> len (Main.PublicKey s) = 32 ->
  result (b <- Main.ToBytes (Some s) ;; Main.Verify valid b payloadHash)
  = Returned
      (if valid (Main.PublicKey s) payloadHash (Main.Signature s)
       then (last20 (sha3.Keccak256 (Main.PublicKey s)), None)
       else (Main.zeroAddress, Some signatureError)).
Proof.
  intros Hsig Hpk. destruct s as [signature publicKey].
  cbn [Main.Signature Main.PublicKey] in *.
  assert (Hsig' : List.length signature = 64%nat) by (unfold len in Hsig; lia).
  assert (Hpk' : List.length publicKey = 32%nat) by (unfold len in Hpk; lia).
  unfold result, run, bind. rewrite ToBytes_run by assumption.
  rewrite (Verify_96 valid) by (rewrite len_app; lia). cbv zeta.
  rewrite (sub_app_left signature publicKey 64) by exact Hsig'.
  change 96%nat with (64 + 32)%nat.
  rewrite (sub_app_right signature publicKey 64 32) by assumption.
  destruct (valid publicKey payloadHash signature); reflexivity.
Qed.

Lemma Verify_of_ToBytes_witness :
  (len signature1 = 64 /\ len publicKey1 = 32)
  /\ result (b <- Main.ToBytes
                    (Some (Main.mkSignatureInfo signature1 publicKey1)) ;;
             Main.Verify RFC8032.verify b payloadHash1)
     = Returned (address1, None).
Proof.
  assert (Hsig : len signature1 = 64) by (vm_compute; reflexivity).
  assert (Hpk : len publicKey1 = 32) by (vm_compute; reflexivity).
  assert (Hvalid : RFC8032.verify publicKey1 payloadHash1 signature1 = true)
    by (vm_compute; reflexivity).
  assert (Haddress : last20 (sha3.Keccak256 publicKey1) = address1)
    by (vm_compute; reflexivity).
  pose proof (Verify_of_ToBytes RFC8032.verify
                (Main.mkSignatureInfo signature1 publicKey1) payloadHash1
                Hsig Hpk) as H.
  cbn [Main.Signature Main.PublicKey] in H. rewrite Hvalid, Haddress in H.
  exact (conj (conj Hsig Hpk) H).
Defined.

(** Two hexadecimal digits decode to the byte they were printed from. *)
Lemma unhex_hex_char (x : byte) :
  byte_of_Z (16 * hex_digit (hex_char (byte_to_Z x / 16))
             + hex_digit (hex_char (byte_to_Z x mod 16))) = x.
Proof. destruct x; reflexivity. Qed.

Lemma unhex_fmt_x (b : bytes) : unhex (fmt_x b) = b.
Proof.
  induction b as [|x b IH]; cbn [fmt_x unhex].
  - reflexivity.
  - rewrite unhex_hex_char, IH. reflexivity.
Qed.

Lemma fmt_x_length (b : bytes) :
  String.length (fmt_x b) = (2 * List.length b)%nat.
Proof.
  induction b as [|x b IH]; cbn [fmt_x String.length List.length].
  - reflexivity.
  - rewrite IH. lia.
Qed.

(** [String] prints an address as [0x] followed by two hexadecimal digits per
    byte, 42 characters for 20 bytes; the digits decode to the address, so
    two addresses print alike only when they are equal. *)
Theorem String_injective (addr addr' : Main.ExecutionAddress) :
  (Main.String addr = Main.String addr' <-> addr = addr')
  /\ String.length (Main.String addr) = (2 + 2 * List.length addr)%nat
  /\ exists digits : string,
       Main.String addr = ("0x" ++ digits)%string /\ unhex digits = addr.
Proof.
  unfold Main.String. split; [split|split].
  - intros H. cbn [String.append] in H. injection H as H.
    rewrite <- (unhex_fmt_x addr), <- (unhex_fmt_x addr'), H. reflexivity.
  - intros ->. reflexivity.
  - cbn [String.append String.length]. rewrite fmt_x_length. reflexivity.
  - exists (fmt_x addr). split; [reflexivity | apply unhex_fmt_x].
Qed.

(** ** The example program and the tests *)

Lemma Sign_bind {A : Type} (sign : bytes -> bytes -> bytes)
  (privateKey message : bytes) (k : bytes -> go A) (log : list call) :
  len privateKey = 64 ->
  (signature <- ed25519.Sign sign privateKey message ;; k signature) log
  = k (sign privateKey message) log.
Proof.
  intros Hlen. unfold bind, ed25519.Sign, ed25519.PrivateKeySize.
  rewrite Hlen. reflexivity.
Qed.

(** [make([]byte, 96)] filled by [copy(b[:64], signature)] and
    [copy(b[64:], publicKey)] is the signature followed by the key. *)
Lemma assemble_96 {A : Type} (signature publicKey : bytes)
  (k : bytes -> go A) (log : list call) :
  List.length signature = 64%nat -> List.length publicKey = 32%nat ->
  (b <- copy_into (make 96) 0 64 signature ;;
   b <- copy_into b 64 (len b) publicKey ;;
   k b) log
  = k (signature ++ publicKey) log.
Proof.
  intros Hsig Hpk.
  unfold bind at 1. change 0 with (Z.of_nat 0). change 64 with (Z.of_nat 64).
  rewrite copy_into_window
    by (unfold make; rewrite ?repeat_length; lia).
  cbn [firstn app].
  assert (Hrest : List.length (skipn 64 (make 96)) = 32%nat)
    by (rewrite length_skipn; unfold make; rewrite repeat_length; lia).
  set (rest := skipn 64 (make 96)) in *.
  unfold bind at 1.
  replace (len (signature ++ rest)) with (Z.of_nat 96)
    by (unfold len; rewrite length_app; lia).
  rewrite copy_into_window by (rewrite ?length_app; lia).
  rewrite skipn_all2 by (rewrite length_app; lia).
  rewrite firstn_app, Hsig, Nat.sub_diag, firstn_O, !app_nil_r.
  rewrite firstn_all2 by lia. reflexivity.
Qed.

(** With the first copy left out the signature bytes stay zero. *)
Lemma assemble_key_only {A : Type} (publicKey : bytes)
  (k : bytes -> go A) (log : list call) :
  List.length publicKey = 32%nat ->
  (b <- copy_into (make 96) 64 (len (make 96)) publicKey ;; k b) log
  = k (make 64 ++ publicKey) log.
Proof.
  intros Hpk. unfold bind.
  change (len (make 96)) with (Z.of_nat 96). change 64 with (Z.of_nat 64).
  rewrite copy_into_window
    by (unfold make; rewrite ?repeat_length; lia).
  change (firstn 64 (make 96)) with (make (Z.of_nat 64)).
  change (skipn 96 (make 96)) with (@nil byte).
  rewrite app_nil_r. reflexivity.
Qed.

(** On a generated key pair, [main] prints its four banner lines and then
    either the success line with the address of the public key, when the
    library accepts the signature it has just made of the example digest, or
    the signature failure; the input it builds for [Verify] always has 96
    bytes, so it never prints the length failure.  It makes one verification
    call, on the generated key, the digest and the signature. *)
Theorem main_prints
  (valid : bytes -> bytes -> bytes -> bool) (sign : bytes -> bytes -> bytes)
  (publicKey privateKey : bytes) :
  let payloadHash :=
    copy (make 32) (bytes_of_string "example transaction payload hash") in
  let signature := sign privateKey payloadHash in
  len privateKey = 64 -> len publicKey = 32 -> len signature = 64 ->
  run (Usage.main valid sign (publicKey, privateKey, None))
  = (Returned
       (Usage.banner
        ++ (if valid publicKey payloadHash signature
            then newline ++ " Signature verified successfully!" ++ newline
                 ++ "Derived Ethereum Address: "
                 ++ Main.String (last20 (sha3.Keccak256 publicKey))
                 ++ newline
            else "Verification failed: ed25519 signature verification failed"
                 ++ newline))%string,
     call_ed25519_Verify publicKey payloadHash signature
       :: (if valid publicKey payloadHash signature
           then derivation_calls publicKey else [])).
Proof.
  intros payloadHash signature Hsk Hpk Hsig.
  assert (Hsig' : List.length signature = 64%nat) by (unfold len in Hsig; lia).
  assert (Hpk' : List.length publicKey = 32%nat) by (unfold len in Hpk; lia).
  unfold run, Usage.main. fold payloadHash.
  rewrite Sign_bind by exact Hsk. fold signature.
  change (make Main.MAX_SIZE) with (make 96).
  rewrite assemble_96 by assumption.
  unfold bind. rewrite (Verify_96 valid) by (rewrite len_app; lia).
  cbv zeta.
  rewrite (sub_app_left signature publicKey 64) by exact Hsig'.
  change 96%nat with (64 + 32)%nat.
  rewrite (sub_app_right signature publicKey 64 32) by assumption.
  destruct (valid publicKey payloadHash signature); reflexivity.
Qed.

(** [main] on the key pair of RFC 8032 with the executable Ed25519: the
    text it prints. *)
Lemma main_prints_witness :
  (len privateKey1 = 64 /\ len publicKey1 = 32
   /\ len (RFC8032.sign privateKey1
             (copy (make 32)
                (bytes_of_string "example transaction payload hash"))) = 64)
  /\ result (Usage.main RFC8032.verify RFC8032.sign
               (publicKey1, privateKey1, None))
     = Returned
         (Usage.banner ++ newline ++ " Signature verified successfully!"
          ++ newline
          ++ "Derived Ethereum Address: "
          ++ "0xf7cc70adc63659b5d37671dc2b588db32446684a" ++ newline)%string.
Proof.
  assert (Hsk : len privateKey1 = 64) by (vm_compute; reflexivity).
  assert (Hpk : len publicKey1 = 32) by (vm_compute; reflexivity).
  assert (Hsig : len (RFC8032.sign privateKey1
                        (copy (make 32)
                           (bytes_of_string
                              "example transaction payload hash"))) = 64)
    by (vm_compute; reflexivity).
  assert (Hvalid :
            RFC8032.verify publicKey1
              (copy (make 32)
                 (bytes_of_string "example transaction payload hash"))
              (RFC8032.sign privateKey1
                 (copy (make 32)
                    (bytes_of_string "example transaction payload hash")))
            = true)
    by (vm_compute; reflexivity).
  assert (Haddress :
            Main.String (last20 (sha3.Keccak256 publicKey1))
            = "0xf7cc70adc63659b5d37671dc2b588db32446684a"%string)
    by (vm_compute; reflexivity).
  pose proof (main_prints RFC8032.verify RFC8032.sign publicKey1 privateKey1
                Hsk Hpk Hsig) as H.
  cbv zeta in H. rewrite Hvalid, Haddress in H.
  exact (conj (conj Hsk (conj Hpk Hsig)) (f_equal fst H)).
Defined.

(** [TestValidSignature] on a generated key pair passes exactly when the
    library accepts the signature it has just made of the test digest;
    otherwise it reports the signature failure.  Its second check, on the
    length of the address, never reports anything. *)
Theorem TestValidSignature_verdict
  (valid : bytes -> bytes -> bytes -> bool) (sign : bytes -> bytes -> bytes)
  (publicKey privateKey : bytes) :
  let payloadHash := copy (make 32) (bytes_of_string "test transaction") in
  let signature := sign privateKey payloadHash in
  len privateKey = 64 -> len publicKey = 32 -> len signature = 64 ->
  result (Tests.TestValidSignature valid sign (publicKey, privateKey, None))
  = Returned
      (if valid publicKey payloadHash signature then []
       else ["Valid signature failed: signature verification failed"%string]).
Proof.
  intros payloadHash signature Hsk Hpk Hsig.
  assert (Hsig' : List.length signature = 64%nat) by (unfold len in Hsig; lia).
  assert (Hpk' : List.length publicKey = 32%nat) by (unfold len in Hpk; lia).
  unfold result, run, Tests.TestValidSignature. fold payloadHash.
  rewrite Sign_bind by exact Hsk. fold signature.
  change (make Test.MAX_SIZE) with (make 96).
  rewrite assemble_96 by assumption.
  unfold bind. rewrite (Test_Verify_96 valid) by (rewrite len_app; lia).
  cbv zeta.
  rewrite (sub_app_left signature publicKey 64) by exact Hsig'.
  change 96%nat with (64 + 32)%nat.
  rewrite (sub_app_right signature publicKey 64 32) by assumption.
  destruct (valid publicKey payloadHash signature).
  - assert (Hlen : len (last20 (sha3.Keccak256 publicKey)) = 20)
      by (unfold len; rewrite last20_length by apply Keccak256_length;
          reflexivity).
    rewrite Hlen. reflexivity.
  - reflexivity.
Qed.

Lemma TestValidSignature_verdict_witness :
  (len privateKey1 = 64 /\ len publicKey1 = 32
   /\ len (RFC8032.sign privateKey1 payloadHash1) = 64)
  /\ result (Tests.TestValidSignature RFC8032.verify RFC8032.sign
               (publicKey1, privateKey1, None))
     = Returned [].
Proof.
  assert (Hsk : len privateKey1 = 64) by (vm_compute; reflexivity).
  assert (Hpk : len publicKey1 = 32) by (vm_compute; reflexivity).
  assert (Hsig : len (RFC8032.sign privateKey1 payloadHash1) = 64)
    by (vm_compute; reflexivity).
  assert (Hvalid : RFC8032.verify publicKey1 payloadHash1
                     (RFC8032.sign privateKey1 payloadHash1) = true)
    by (vm_compute; reflexivity).
  pose proof (TestValidSignature_verdict RFC8032.verify RFC8032.sign
                publicKey1 privateKey1 Hsk Hpk Hsig) as H.
  cbv zeta in H. fold payloadHash1 in H. rewrite Hvalid in H.
  exact (conj (conj Hsk (conj Hpk Hsig)) H).
Defined.

(** [TestInvalidSignature] passes exactly when the library rejects the
    all-zero signature under the generated key over the all-zero digest; when
    the library accepts it, the test reports a nil error. *)
Theorem TestInvalidSignature_verdict
  (valid : bytes -> bytes -> bytes -> bool)
  (publicKey privateKey : bytes) (err : option error) :
  len publicKey = 32 ->
  result (Tests.TestInvalidSignature valid (publicKey, privateKey, err))
  = Returned
      (if valid publicKey (make 32) (make 64)
       then ["Expected signature error, got <nil>"%string] else []).
Proof.
  intros Hpk.
  assert (Hpk' : List.length publicKey = 32%nat) by (unfold len in Hpk; lia).
  unfold result, run, Tests.TestInvalidSignature.
  change (make Test.MAX_SIZE) with (make 96).
  rewrite assemble_key_only by exact Hpk'.
  unfold bind.
  rewrite (Test_Verify_96 valid)
    by (rewrite len_app; unfold len, make; rewrite repeat_length; lia).
  cbv zeta.
  rewrite (sub_app_left (make 64) publicKey 64)
    by (unfold make; rewrite repeat_length; reflexivity).
  change 96%nat with (64 + 32)%nat.
  rewrite (sub_app_right (make 64) publicKey 64 32)
    by (try exact Hpk'; unfold make; rewrite repeat_length; reflexivity).
  destruct (valid publicKey (make 32) (make 64)); reflexivity.
Qed.

Lemma TestInvalidSignature_verdict_witness :
  len publicKey1 = 32
  /\ result (Tests.TestInvalidSignature RFC8032.verify
               (publicKey1, privateKey1, None))
     = Returned [].
Proof.
  assert (Hpk : len publicKey1 = 32) by (vm_compute; reflexivity).
  assert (Hvalid : RFC8032.verify publicKey1 (make 32) (make 64) = false)
    by (vm_compute; reflexivity).
  pose proof (TestInvalidSignature_verdict RFC8032.verify publicKey1
                privateKey1 None Hpk) as H.
  rewrite Hvalid in H.
  exact (conj Hpk H).
Defined.

(** ** The library against RFC 8032 *)

(** The model of the library accepts what the tests of the repository sign
    and rejects what they tamper with, as the verification of the RFC
    does. *)
Example crypto_ed25519_on_the_tests :
  crypto_ed25519.verify publicKey1 payloadHash1 signature1
  = RFC8032.verify publicKey1 payloadHash1 signature1
  /\ crypto_ed25519.verify publicKey1 (make 32) signature1
     = RFC8032.verify publicKey1 (make 32) signature1
  /\ crypto_ed25519.verify publicKey1 (make 32) (make 64)
     = RFC8032.verify publicKey1 (make 32) (make 64)
  /\ crypto_ed25519.verify publicKey1 [] (RFC8032.sign privateKey1 []) = true
  /\ run (Test.Verify crypto_ed25519.verify signatureInfo1 payloadHash1)
     = run (Test.Verify RFC8032.verify signatureInfo1 payloadHash1)
  /\ run (Usage.main crypto_ed25519.verify RFC8032.sign
            (publicKey1, privateKey1, None))
     = run (Usage.main RFC8032.verify RFC8032.sign
              (publicKey1, privateKey1, None)).
Proof. vm_compute. repeat split. Qed.

(** Section 5.1.3 decodes neither of the two keys; the library decodes both
    to the neutral point. *)
Example undecodable_keys :
  RFC8032.point_decompress publicKey_unreduced = None
  /\ RFC8032.point_decompress publicKey_signed_zero = None
  /\ crypto_ed25519.SetBytes publicKey_unreduced
     = crypto_ed25519.SetBytes publicKey_signed_zero
  /\ crypto_ed25519.SetBytes publicKey_unreduced <> None.
Proof. vm_compute. repeat split. discriminate. Qed.

(** C1.  The equivalence of the claim fails on the program: on the 96 bytes
    made of the encoding of the neutral point, the scalar zero and a public
    key that section 5.1.3 of RFC 8032 refuses to decode (the ordinate
    [p + 1], or the ordinate [1] with the sign bit set), [Verify] with the
    verification of the library returns the address of that key with a nil
    error, for the digest of the tests, while the verification of RFC 8032
    section 5.1.7 is false.  So [Verify] returning an address is not
    equivalent to the verification of the RFC succeeding. *)
Theorem Verify_accepts_undecodable_key :
  let signatureInfo := signature_neutral ++ publicKey_unreduced in
  let signatureInfo' := signature_neutral ++ publicKey_signed_zero in
  (len signatureInfo = 96 /\ len signatureInfo' = 96 /\ len payloadHash1 = 32)
  /\ sub signatureInfo 64 96 = publicKey_unreduced
  /\ sub signatureInfo' 64 96 = publicKey_signed_zero
  /\ result (Main.Verify crypto_ed25519.verify signatureInfo payloadHash1)
     = Returned (unhex "9d6e8f308302431739870cf703e369334d91a046", None)
  /\ RFC8032.verify (sub signatureInfo 64 96) payloadHash1
       (sub signatureInfo 0 64) = false
  /\ result (Main.Verify crypto_ed25519.verify signatureInfo' payloadHash1)
     = Returned (unhex "fd2c9b75771bfac406bc573a65504996137deceb", None)
  /\ RFC8032.verify (sub signatureInfo' 64 96) payloadHash1
       (sub signatureInfo' 0 64) = false
  /\ ~ ((exists address,
            result (Main.Verify crypto_ed25519.verify signatureInfo
                      payloadHash1)
            = Returned (address, None))
        <-> RFC8032.verify (sub signatureInfo 64 96) payloadHash1
              (sub signatureInfo 0 64) = true).
Proof.
  intros signatureInfo signatureInfo'.
  assert (Hrun :
            result (Main.Verify crypto_ed25519.verify signatureInfo
                      payloadHash1)
            = Returned (unhex "9d6e8f308302431739870cf703e369334d91a046",
                        None))
    by (vm_compute; reflexivity).
  assert (Hrfc : RFC8032.verify (sub signatureInfo 64 96) payloadHash1
                   (sub signatureInfo 0 64) = false)
    by (vm_compute; reflexivity).
  assert (Hrun' :
            result (Main.Verify crypto_ed25519.verify signatureInfo'
                      payloadHash1)
            = Returned (unhex "fd2c9b75771bfac406bc573a65504996137deceb",
                        None))
    by (vm_compute; reflexivity).
  assert (Hrfc' : RFC8032.verify (sub signatureInfo' 64 96) payloadHash1
                    (sub signatureInfo' 0 64) = false)
    by (vm_compute; reflexivity).
  split; [vm_compute; repeat split|].
  split; [vm_compute; reflexivity|].
  split; [vm_compute; reflexivity|].
  split; [exact Hrun|]. split; [exact Hrfc|].
  split; [exact Hrun'|]. split; [exact Hrfc'|].
  intros [Hsuccess _].
  assert (Htrue : RFC8032.verify (sub signatureInfo 64 96) payloadHash1
                    (sub signatureInfo 0 64) = true)
    by (apply Hsuccess; eexists; exact Hrun).
  rewrite Hrfc in Htrue. discriminate Htrue.
Qed.

(** ** No state but the two arguments *)

Lemma nth_error_app_end (l : list sha3.state) (d : sha3.state) :
  nth_error (l ++ [d]) (List.length l) = Some d.
Proof.
  rewrite nth_error_app2 by lia. rewrite Nat.sub_diag. reflexivity.
Qed.

Lemma update_app_end (l : list sha3.state) (d d' : sha3.state) :
  Store.update (l ++ [d]) (List.length l) d' = l ++ [d'].
Proof.
  induction l as [|x l IH]; cbn [app List.length Store.update].
  - reflexivity.
  - rewrite IH. reflexivity.
Qed.

(** [deriveAddress] allocates one hash object, after the existing ones, and
    reads that object only. *)
Lemma Store_deriveAddress_run (publicKey : bytes) (w : Store.world) :
  Store.deriveAddress publicKey w
  = (Returned (last20 (sha3.Keccak256 publicKey)),
     Store.mkWorld
       (Store.objects w
        ++ [fold_left sha3.absorb publicKey sha3.legacyKeccak256])
       (Store.history w ++ derivation_calls publicKey)).
Proof.
  destruct w as [objects history].
  unfold Store.deriveAddress, Store.NewLegacyKeccak256, Store.Write, Store.Sum.
  unfold Store.bind, Store.lift, Store.new, Store.load, Store.store,
    Store.ret, record.
  cbn [Store.objects Store.history].
  repeat (rewrite ?nth_error_app_end, ?update_app_end;
          cbn [Store.objects Store.history app]).
  change (sha3.digest (fold_left sha3.absorb publicKey sha3.legacyKeccak256))
    with (sha3.Keccak256 publicKey).
  generalize (Keccak256_length publicKey).
  generalize (sha3.Keccak256 publicKey). intros digest Hlen.
  replace (len digest - 20) with (Z.of_nat 12) by (unfold len; lia).
  replace (len digest) with (Z.of_nat 32) by (unfold len; lia).
  rewrite slice_in_range by lia.
  rewrite copy_same_length by (rewrite length_sub by lia; reflexivity).
  unfold sub, last20, derivation_calls. rewrite Hlen.
  rewrite firstn_all2 by (rewrite length_skipn; lia).
  rewrite <- !app_assoc. reflexivity.
Qed.

(** [Verify] over the store computes what [Verify] computes, appends its
    library calls to the history, and leaves the store as it is but for the
    hash object it allocates when the library accepts. *)
Lemma Store_Verify_run
  (valid : bytes -> bytes -> bytes -> bool) (signatureInfo payloadHash : bytes)
  (w : Store.world) :
  Store.Verify valid signatureInfo payloadHash w
  = (result (Main.Verify valid signatureInfo payloadHash),
     Store.mkWorld
       (Store.objects w
        ++ (if (len signatureInfo =? 96)
               && valid (sub signatureInfo 64 96) payloadHash
                    (sub signatureInfo 0 64)
            then [fold_left sha3.absorb (sub signatureInfo 64 96)
                    sha3.legacyKeccak256]
            else []))
       (Store.history w ++ calls (Main.Verify valid signatureInfo payloadHash))).
Proof.
  destruct w as [objects history]. unfold result, calls, run.
  destruct (Z.eq_dec (len signatureInfo) 96) as [Hlen|Hlen].
  - assert (Hlength : List.length signatureInfo = 96%nat)
      by (unfold len in Hlen; lia).
    rewrite (Verify_96 valid) by exact Hlen. cbv zeta.
    unfold Store.Verify, Main.MAX_SIZE. rewrite Hlen.
    cbn [Z.eqb Pos.eqb negb andb].
    unfold Store.bind at 1. unfold Store.lift at 1.
    change 0 with (Z.of_nat 0). change 64 with (Z.of_nat 64).
    rewrite slice_in_range by lia.
    unfold Store.bind at 1. unfold Store.lift at 1.
    change 96 with (Z.of_nat 96). rewrite slice_in_range by lia.
    unfold Store.bind at 1. unfold Store.lift at 1.
    cbn [Store.objects Store.history].
    rewrite (ed25519_Verify_run valid)
      by (unfold len; rewrite length_sub by lia; reflexivity).
    destruct (valid (sub signatureInfo 64 96) payloadHash
                (sub signatureInfo 0 64)); cbn [negb fst snd].
    + unfold Store.bind. rewrite Store_deriveAddress_run.
      unfold Store.ret. cbn [Store.objects Store.history app].
      rewrite <- app_assoc. reflexivity.
    + unfold Store.ret. rewrite app_nil_r. reflexivity.
  - rewrite (Verify_not_96 valid) by exact Hlen.
    unfold Store.Verify, Main.MAX_SIZE.
    apply Z.eqb_neq in Hlen. rewrite Hlen.
    cbn [negb andb fst snd]. unfold Store.ret.
    rewrite !app_nil_r. reflexivity.
Qed.

(** The operations of the store do read it: the digest [Sum] returns for a
    pointer depends on what the object behind it has absorbed, so a hash
    object kept from one call to the next would make an address depend on
    the earlier calls. *)
Example Sum_reads_the_store :
  fst (Store.Sum 0 [] (Store.mkWorld [sha3.legacyKeccak256] []))
  = Returned (sha3.Keccak256 [])
  /\ fst (Store.bind (Store.Write 0 publicKey1) (fun _ => Store.Sum 0 [])
            (Store.mkWorld [sha3.legacyKeccak256] []))
     = Returned (sha3.Keccak256 publicKey1)
  /\ fst (Store.bind (Store.Write 0 publicKey1) (fun _ => Store.Sum 0 [])
            (Store.mkWorld
               [fold_left sha3.absorb publicKey1 sha3.legacyKeccak256] []))
     = Returned (sha3.Keccak256 (publicKey1 ++ publicKey1))
  /\ sha3.Keccak256 (publicKey1 ++ publicKey1) <> sha3.Keccak256 publicKey1
  /\ exists msg : string,
       fst (Store.Sum 0 [] (Store.mkWorld [] [])) = Panicked msg.
Proof.
  vm_compute. repeat split; try discriminate. eexists. reflexivity.
Qed.

(** C6.  [Verify] reads no state but its two arguments: run over the store of
    hash objects, from any two stores and any two histories of library
    calls it returns the same outcome, which is the outcome determined by
    [signatureInfo] and [payloadHash]; it modifies no object that exists when
    it is called, the one hash object it works on being the one it
    allocates; and the library calls it adds to the history are determined
    by the two arguments.  The signature library is a function of its three
    arguments. *)
Theorem Verify_reads_no_state
  (valid : bytes -> bytes -> bytes -> bool) (signatureInfo payloadHash : bytes)
  (w w' : Store.world) :
  fst (Store.Verify valid signatureInfo payloadHash w)
  = fst (Store.Verify valid signatureInfo payloadHash w')
  /\ fst (Store.Verify valid signatureInfo payloadHash w)
     = result (Main.Verify valid signatureInfo payloadHash)
  /\ firstn (List.length (Store.objects w))
       (Store.objects (snd (Store.Verify valid signatureInfo payloadHash w)))
     = Store.objects w
  /\ Store.history (snd (Store.Verify valid signatureInfo payloadHash w))
     = Store.history w ++ calls (Main.Verify valid signatureInfo payloadHash).
Proof.
  rewrite !Store_Verify_run. cbn [fst snd Store.objects Store.history].
  repeat split.
  rewrite firstn_app, Nat.sub_diag, firstn_O, app_nil_r. apply firstn_all.
Qed.
